(** * GeoPackage tile-aware merge (merge.ts): shallow embedding and properties

    The program clones its first input file, drops the clone's data tables,
    creates one tile table, registers it in the GeoPackage catalog from a
    template table and bulk-copies the tiles of the second input (INSERT OR
    REPLACE) and then of the first input (INSERT OR IGNORE).

    Modelling conventions.
    - A database file is a value of type [Database]; the file system maps
      path strings to databases, and two paths name the same file only when
      they are the same string.
    - The source files are read from the file system as it is once the
      clone has been written.  Statements about whole runs assume that the
      output path is not an existing file, which is what
      [ensureUniqueOutputFile] aims at; a run that writes its output over
      one of its inputs is outside their scope.
    - The three catalog tables the program reads and writes
      (gpkg_contents, gpkg_tile_matrix_set, gpkg_tile_matrix) are typed
      fields of [Database] and carry the constraints of the GeoPackage
      table definitions: the primary keys (table_name; table_name;
      table_name with zoom_level), UNIQUE (identifier) on gpkg_contents,
      the NOT NULL columns, and the foreign keys into
      gpkg_spatial_ref_sys (srs_id) and gpkg_contents (table_name), which
      the driver enforces.  [srs_ids] is the srs_id column of
      gpkg_spatial_ref_sys.  Triggers are not represented.
    - Every other table is an entry of [tables], in sqlite_master order,
      except the engine's own bookkeeping tables (sqlite_sequence and the
      like), which are not represented.  A row is seen through the four
      columns the program selects (zoom_level, tile_column, tile_row as
      integers, tile_data as bytes); the surrogate id of the destination
      table is the position in the row list.
    - Table names are plain identifiers: ["${name}"] denotes [name].  The
      file path spliced into the ATTACH statement is lexed as SQL text;
      only the statement that attaches one file is interpreted (see
      [parse_attach]), so general statements about a merge call are given
      for paths without single quotes.
    - Of the files a run writes, [disk] records the output file.  Side
      files of the storage engine are not represented, and neither is the
      empty file that an ATTACH statement creates when its literal names no
      file, which cannot happen for an existing source read from a path
      without single quotes.  Foreign keys between user tables, which can
      make a DROP TABLE fail, are not represented either.
    - Console output and file sizes are not modelled. *)

From Stdlib Require Import List String Ascii ZArith Bool Arith Lia DecimalString.
From Stdlib Require Import Strings.Byte.
From Stdlib Require Import Sorted.
Import ListNotations.
Open Scope string_scope.

(** ** JavaScript errors and results *)

Record JsError := { message : string; status : option Z }.

(** [new Error(msg)]: a plain error object carries no [status] property. *)
Definition Error (msg : string) : JsError := {| message := msg; status := None |}.

(** An SQL error raised by the database driver (no [status] property either). *)
Definition SqliteError (msg : string) : JsError := {| message := msg; status := None |}.

Inductive result (A : Type) : Type :=
| Ok (a : A)
| Throw (e : JsError).
Arguments Ok {A} a.
Arguments Throw {A} e.

(** ** SQL values and rows *)

Inductive SqlValue : Type :=
| SqlNull
| SqlInteger (n : Z)
| SqlReal (bits : Z)          (* an IEEE-754 double, kept as its bit pattern *)
| SqlText (s : string)
| SqlBlob (b : list byte).

Definition TileKey : Type := (Z * Z * Z)%type.

Record TileRow := {
  zoom_level : Z;
  tile_column : Z;
  tile_row : Z;
  tile_data : list byte
}.

Definition key (r : TileRow) : TileKey := (zoom_level r, tile_column r, tile_row r).

Definition key_eqb (a b : TileKey) : bool :=
  let '(z1, c1, r1) := a in
  let '(z2, c2, r2) := b in
  (z1 =? z2)%Z && (c1 =? c2)%Z && (r1 =? r2)%Z.

Record Table := {
  columns : list string;
  rows : list TileRow
}.

Record ContentsRow := {
  c_table_name : string;
  c_data_type : SqlValue;
  c_identifier : SqlValue;
  c_description : SqlValue;
  c_last_change : SqlValue;
  c_min_x : SqlValue;
  c_min_y : SqlValue;
  c_max_x : SqlValue;
  c_max_y : SqlValue;
  c_srs_id : SqlValue
}.

Record TileMatrixSetRow := {
  s_table_name : string;
  s_srs_id : SqlValue;
  s_min_x : SqlValue;
  s_min_y : SqlValue;
  s_max_x : SqlValue;
  s_max_y : SqlValue
}.

Record TileMatrixRow := {
  m_table_name : string;
  m_zoom_level : Z;
  m_matrix_width : SqlValue;
  m_matrix_height : SqlValue;
  m_tile_width : SqlValue;
  m_tile_height : SqlValue;
  m_pixel_x_size : SqlValue;
  m_pixel_y_size : SqlValue
}.

Record Database := {
  tables : list (string * Table);
  gpkg_contents : list ContentsRow;
  gpkg_tile_matrix_set : list TileMatrixSetRow;
  gpkg_tile_matrix : list TileMatrixRow;
  srs_ids : list Z;
  application_id : Z;
  user_version : Z
}.

Definition empty_database : Database :=
  {| tables := []; gpkg_contents := []; gpkg_tile_matrix_set := [];
     gpkg_tile_matrix := []; srs_ids := [];
     application_id := 0; user_version := 0 |}.

Definition with_tables (db : Database) (ts : list (string * Table)) : Database :=
  {| tables := ts; gpkg_contents := gpkg_contents db;
     gpkg_tile_matrix_set := gpkg_tile_matrix_set db;
     gpkg_tile_matrix := gpkg_tile_matrix db;
     srs_ids := srs_ids db;
     application_id := application_id db; user_version := user_version db |}.

(** ** The file system and the process environment *)

Definition FileSystem : Type := string -> option Database.

Definition writeFile (fs : FileSystem) (path : string) (db : Database) : FileSystem :=
  fun p => if (p =? path)%string then Some db else fs p.

Definition existsSync (fs : FileSystem) (path : string) : bool :=
  match fs path with Some _ => true | None => false end.

(** What a run receives from outside the program: the files, Node's [path]
    functions, the clock ([Date.now()] and SQLite's [datetime('now')]) and
    the storage engine's integrity check. *)
Record World := {
  files : FileSystem;
  path_basename : string -> string -> string;
  path_extname : string -> string;
  Date_now : Z;
  datetime_now : string;
  integrity_check : Database -> string
}.

(** ** SQL text: LIKE patterns and quoted literals *)

(** ASCII case folding, as LIKE applies it. *)
Definition lower (c : ascii) : ascii :=
  let n := nat_of_ascii c in
  if ((65 <=? n) && (n <=? 90))%nat then ascii_of_nat (n + 32) else c.

(** [like p s] is SQLite's [s LIKE p]: [%] matches any run of characters,
    [_] matches any one character, every other character matches itself up
    to ASCII case. *)
Fixpoint like (p s : string) {struct p} : bool :=
  match p with
  | EmptyString => match s with EmptyString => true | String _ _ => false end
  | String c p' =>
      if (c =? "%")%char then
        (fix star (s : string) : bool :=
           like p' s || match s with EmptyString => false | String _ s' => star s' end) s
      else if (c =? "_")%char then
        match s with EmptyString => false | String _ s' => like p' s' end
      else
        match s with
        | EmptyString => false
        | String d s' => (lower c =? lower d)%char && like p' s'
        end
  end.

(** Reads a quoted SQL token whose opening quote [q] has been consumed: the
    token's content and the text after its closing quote.  A doubled quote
    stands for one quote character; [None] when the token is not closed. *)
Fixpoint lex_quoted (q : ascii) (s : string) : option (string * string) :=
  match s with
  | EmptyString => None
  | String c s' =>
      if (c =? q)%char then
        match s' with
        | String c2 s'' =>
            if (c2 =? q)%char then
              match lex_quoted q s'' with
              | Some (body, rest) => Some (String q body, rest)
              | None => None
              end
            else Some (EmptyString, s')
        | EmptyString => Some (EmptyString, EmptyString)
        end
      else
        match lex_quoted q s' with
        | Some (body, rest) => Some (String c body, rest)
        | None => None
        end
  end.

(** Drops [pre] from the front of [s] when [s] starts with it. *)
Fixpoint strip_prefix (pre s : string) : option string :=
  match pre with
  | EmptyString => Some s
  | String c pre' =>
      match s with
      | String d s' => if (c =? d)%char then strip_prefix pre' s' else None
      | EmptyString => None
      end
  end.

(** The file named by [ATTACH DATABASE '<literal>' AS source_db]; [None]
    when the text does not have that shape, which the merge treats as a
    syntax error.  Only this shape is recognised: a path whose own quote
    characters would build another SQL expression or a comment is not
    followed further. *)
Definition parse_attach (sql : string) : option string :=
  match strip_prefix "ATTACH DATABASE '" sql with
  | None => None
  | Some after =>
      match lex_quoted "'" after with
      | Some (path, rest) => if (rest =? " AS source_db")%string then Some path else None
      | None => None
      end
  end.

(** ** Schema inspection *)

(** The WHERE clause of [getDataTables] on one table name. *)
Definition dataTableName (name : string) : bool :=
  negb (like "sqlite_%" name)
  && negb (like "gpkg_%" name)
  && negb (like "rtree_%" name)
  && negb (like "idx_%" name).

Definition getDataTables (database : Database) : list string :=
  map fst (filter (fun t => dataTableName (fst t)) (tables database)).

Definition findTable (database : Database) (tableName : string) : option Table :=
  match find (fun t => (fst t =? tableName)%string) (tables database) with
  | Some t => Some (snd t)
  | None => None
  end.

(** [PRAGMA table_info]: the column names, none for an unknown table. *)
Definition getTableColumns (database : Database) (tableName : string) : list string :=
  match findTable database tableName with
  | Some t => columns t
  | None => []
  end.

(** [columns.some(col => col.name === 'tile_data')] *)
Definition isTileTable (cols : list string) : bool :=
  existsb (fun c => (c =? "tile_data")%string) cols.

(** ** Catalog and table updates *)

Definition with_contents (db : Database) (cs : list ContentsRow) : Database :=
  {| tables := tables db; gpkg_contents := cs;
     gpkg_tile_matrix_set := gpkg_tile_matrix_set db;
     gpkg_tile_matrix := gpkg_tile_matrix db;
     srs_ids := srs_ids db;
     application_id := application_id db; user_version := user_version db |}.

Definition with_tile_matrix_set (db : Database) (ss : list TileMatrixSetRow) : Database :=
  {| tables := tables db; gpkg_contents := gpkg_contents db;
     gpkg_tile_matrix_set := ss;
     gpkg_tile_matrix := gpkg_tile_matrix db;
     srs_ids := srs_ids db;
     application_id := application_id db; user_version := user_version db |}.

Definition with_tile_matrix (db : Database) (ms : list TileMatrixRow) : Database :=
  {| tables := tables db; gpkg_contents := gpkg_contents db;
     gpkg_tile_matrix_set := gpkg_tile_matrix_set db;
     gpkg_tile_matrix := ms;
     srs_ids := srs_ids db;
     application_id := application_id db; user_version := user_version db |}.

Definition isNull (v : SqlValue) : bool :=
  match v with SqlNull => true | _ => false end.

(** The first NOT NULL column that is given NULL. *)
Definition firstNull (cols : list (string * SqlValue)) : option string :=
  match find (fun cv => isNull (snd cv)) cols with
  | Some cv => Some (fst cv)
  | None => None
  end.

(** Two values of the identifier column that UNIQUE (identifier) keeps
    apart: the column holds text, and NULLs never collide. *)
Definition sameText (a b : SqlValue) : bool :=
  match a, b with
  | SqlText x, SqlText y => (x =? y)%string
  | _, _ => false
  end.

(** A row of gpkg_contents that the new row [r] collides with, on the
    primary key table_name or on UNIQUE (identifier). *)
Definition contentsConflict (r c : ContentsRow) : bool :=
  (c_table_name c =? c_table_name r)%string || sameText (c_identifier c) (c_identifier r).

(** The rows an accepted INSERT OR REPLACE leaves: the rows it collides
    with are deleted and the new row is added at the end. *)
Definition replaceContents (r : ContentsRow) (db : Database) : Database :=
  with_contents db
    (filter (fun c => negb (contentsConflict r c)) (gpkg_contents db) ++ [r])%list.

Definition replaceTileMatrixSet (r : TileMatrixSetRow) (db : Database) : Database :=
  with_tile_matrix_set db
    (filter (fun s => negb (s_table_name s =? s_table_name r)%string) (gpkg_tile_matrix_set db)
     ++ [r])%list.

Definition same_matrix_key (a b : TileMatrixRow) : bool :=
  (m_table_name a =? m_table_name b)%string && (m_zoom_level a =? m_zoom_level b)%Z.

(** gpkg_tile_matrix is keyed by (table_name, zoom_level). *)
Definition replaceTileMatrix (r : TileMatrixRow) (db : Database) : Database :=
  with_tile_matrix db
    (filter (fun m => negb (same_matrix_key m r)) (gpkg_tile_matrix db) ++ [r])%list.

(** The foreign key into gpkg_spatial_ref_sys (srs_id): NULL passes, an
    integer has to be a registered srs_id. *)
Definition srsRegistered (db : Database) (v : SqlValue) : bool :=
  match v with
  | SqlNull => true
  | SqlInteger n => existsb (fun s => (s =? n)%Z) (srs_ids db)
  | _ => false
  end.

(** The foreign key into gpkg_contents (table_name). *)
Definition contentsRegistered (db : Database) (name : string) : bool :=
  existsb (fun c => (c_table_name c =? name)%string) (gpkg_contents db).

(** Rows of gpkg_tile_matrix_set or gpkg_tile_matrix that reference the
    gpkg_contents row of [name].  Further tables with a foreign key into
    gpkg_contents (gpkg_geometry_columns and the like) are not
    represented. *)
Definition referenced (db : Database) (name : string) : bool :=
  existsb (fun s => (s_table_name s =? name)%string) (gpkg_tile_matrix_set db)
  || existsb (fun m => (m_table_name m =? name)%string) (gpkg_tile_matrix db).

(** Replacing would delete the gpkg_contents row of another table that is
    still referenced. *)
Definition orphans (r : ContentsRow) (db : Database) : bool :=
  existsb
    (fun c => contentsConflict r c
              && negb (c_table_name c =? c_table_name r)%string
              && referenced db (c_table_name c))
    (gpkg_contents db).

Definition notNullFailed (table column : string) : JsError :=
  SqliteError ("NOT NULL constraint failed: " ++ table ++ "." ++ column).

Definition foreignKeyFailed : JsError := SqliteError "FOREIGN KEY constraint failed".

(** [INSERT OR REPLACE INTO gpkg_contents ...]: a statement that breaks a
    constraint fails as a whole and changes nothing. *)
Definition insertOrReplaceContents (r : ContentsRow) (db : Database) : result Database :=
  match firstNull [("data_type", c_data_type r)] with
  | Some column => Throw (notNullFailed "gpkg_contents" column)
  | None =>
      if negb (srsRegistered db (c_srs_id r)) || orphans r db
      then Throw foreignKeyFailed
      else Ok (replaceContents r db)
  end.

(** [INSERT OR REPLACE INTO gpkg_tile_matrix_set ...] *)
Definition insertOrReplaceTileMatrixSet (r : TileMatrixSetRow) (db : Database)
  : result Database :=
  match firstNull [("srs_id", s_srs_id r); ("min_x", s_min_x r); ("min_y", s_min_y r);
                   ("max_x", s_max_x r); ("max_y", s_max_y r)] with
  | Some column => Throw (notNullFailed "gpkg_tile_matrix_set" column)
  | None =>
      if negb (contentsRegistered db (s_table_name r)) || negb (srsRegistered db (s_srs_id r))
      then Throw foreignKeyFailed
      else Ok (replaceTileMatrixSet r db)
  end.

(** [INSERT OR REPLACE INTO gpkg_tile_matrix ...] *)
Definition insertOrReplaceTileMatrix (r : TileMatrixRow) (db : Database)
  : result Database :=
  match firstNull [("matrix_width", m_matrix_width r); ("matrix_height", m_matrix_height r);
                   ("tile_width", m_tile_width r); ("tile_height", m_tile_height r);
                   ("pixel_x_size", m_pixel_x_size r); ("pixel_y_size", m_pixel_y_size r)] with
  | Some column => Throw (notNullFailed "gpkg_tile_matrix" column)
  | None =>
      if negb (contentsRegistered db (m_table_name r))
      then Throw foreignKeyFailed
      else Ok (replaceTileMatrix r db)
  end.

(** [DROP TABLE IF EXISTS "name"] *)
Definition dropTable (name : string) (db : Database) : Database :=
  with_tables db (filter (fun t => negb (fst t =? name)%string) (tables db)).

Definition lower_string (s : string) : string :=
  string_of_list_ascii (map lower (list_ascii_of_string s)).

(** SQL resolves a column name up to ASCII case. *)
Definition hasColumn (cols : list string) (name : string) : bool :=
  existsb (fun c => (lower_string c =? name)%string) cols.

Definition hasTileColumns (cols : list string) : bool :=
  hasColumn cols "zoom_level" && hasColumn cols "tile_column"
  && hasColumn cols "tile_row" && hasColumn cols "tile_data".

Definition tileTableColumns : list string :=
  ["id"; "zoom_level"; "tile_column"; "tile_row"; "tile_data"].

Definition catalogTables : list string :=
  ["gpkg_contents"; "gpkg_tile_matrix_set"; "gpkg_tile_matrix"].

(** SQL compares table names up to ASCII case. *)
Definition sameName (a b : string) : bool :=
  (lower_string a =? lower_string b)%string.

Definition tableExists (db : Database) (name : string) : bool :=
  existsb (fun t => sameName (fst t) name) (tables db)
  || existsb (fun n => sameName n name) catalogTables.

(** Names starting with sqlite_ are reserved for the engine. *)
Definition reservedName (name : string) : bool :=
  match strip_prefix "sqlite_" (lower_string name) with
  | Some _ => true
  | None => false
  end.

(** [CREATE TABLE "name" (id ..., zoom_level, tile_column, tile_row,
    tile_data, UNIQUE (zoom_level, tile_column, tile_row))] *)
Definition execCreateTable (db : Database) (name : string) : result Database :=
  if reservedName name then
    Throw (SqliteError ("object name reserved for internal use: " ++ name))
  else if tableExists db name then
    Throw (SqliteError ("table " ++ name ++ " already exists"))
  else
    Ok (with_tables db
          (tables db ++ [(name, {| columns := tileTableColumns; rows := [] |})])%list).

(** ** Conflict resolution on the destination table *)

Definition hasKey (k : TileKey) (tbl : list TileRow) : bool :=
  existsb (fun r => key_eqb (key r) k) tbl.

(** One row of [INSERT OR IGNORE] / [INSERT OR REPLACE] against the UNIQUE
    (zoom_level, tile_column, tile_row) constraint, with the statement's
    running change count. *)
Definition insertRow (useIgnore : bool) (acc : list TileRow * nat) (r : TileRow)
  : list TileRow * nat :=
  let (tbl, changes) := acc in
  if hasKey (key r) tbl then
    if useIgnore then (tbl, changes)
    else ((filter (fun old => negb (key_eqb (key old) (key r))) tbl ++ [r])%list, S changes)
  else ((tbl ++ [r])%list, S changes).

Definition bulkInsert (useIgnore : bool) (tbl src : list TileRow) : list TileRow * nat :=
  fold_left (insertRow useIgnore) src (tbl, 0).


(** [SELECT zoom_level, tile_column, tile_row, tile_data FROM source_db."name"] *)
Definition selectTiles (source_db : Database) (name : string) : option (list TileRow) :=
  match findTable source_db name with
  | Some t => if hasTileColumns (columns t) then Some (rows t) else None
  | None => None
  end.

Definition setRows (name : string) (rs : list TileRow) (db : Database) : Database :=
  with_tables db
    (map (fun t => if (fst t =? name)%string
                   then (fst t, {| columns := columns (snd t); rows := rs |})
                   else t)
         (tables db)).

(** The prepared INSERT ... SELECT statement and its [changes]. *)
Definition insertSelect (useIgnore : bool) (targetDb : Database) (targetTable : string)
    (source_db : Database) (name : string) : Database * result nat :=
  match findTable targetDb targetTable, selectTiles source_db name with
  | Some t, Some src =>
      if hasTileColumns (columns t) then
        let (rs, changes) := bulkInsert useIgnore (rows t) src in
        (setRows targetTable rs targetDb, Ok changes)
      else (targetDb, Throw (SqliteError "no such column"))
  | None, _ => (targetDb, Throw (SqliteError ("no such table: " ++ targetTable)))
  | _, None => (targetDb, Throw (SqliteError ("no such table or column: source_db." ++ name)))
  end.

(** ** The program *)

Definition BAD_REQUEST : Z := 400.

(** A JavaScript string is truthy when it is defined and not empty. *)
Definition truthy (s : option string) : option string :=
  match s with
  | Some EmptyString => None
  | other => other
  end.

(** [array.filter(Boolean)] on an array of strings and nulls. *)
Definition filterBoolean (l : list (option string)) : list string :=
  flat_map (fun x => match truthy x with Some s => [s] | None => [] end) l.

Definition validateFilesExist (fs : FileSystem) (file1Path file2Path : string) : result unit :=
  let file1Exists := existsSync fs file1Path in
  let file2Exists := existsSync fs file2Path in
  if negb file1Exists || negb file2Exists then
    let missingFiles :=
      filterBoolean
        [ if negb file1Exists then Some file1Path else None;
          if negb file2Exists then Some file2Path else None ] in
    Throw (Error ("Missing file(s): " ++ String.concat ", " missingFiles))
  else Ok tt.

Definition getFileName (w : World) (filepath : string) : string :=
  path_basename w filepath (path_extname w filepath).

Definition createOutputFilename (w : World) (file1Path file2Path : string)
    (customOutput : option string) : string :=
  match truthy customOutput with
  | Some out => out
  | None =>
      let name1 := getFileName w file1Path in
      let name2 := getFileName w file2Path in
      "merged_" ++ name1 ++ "_" ++ name2 ++ ".gpkg"
  end.

(** [s.replace(pat, '')]: the first occurrence of [pat] is removed. *)
Fixpoint removeFirst (pat s : string) : string :=
  match strip_prefix pat s with
  | Some rest => rest
  | None =>
      match s with
      | EmptyString => EmptyString
      | String c s' => String c (removeFirst pat s')
      end
  end.

Definition ensureUniqueOutputFile (w : World) (outputFilename : string) : string :=
  if negb (existsSync (files w) outputFilename) then outputFilename
  else
    let ext := path_extname w outputFilename in
    let nameWithoutExt := removeFirst ext outputFilename in
    nameWithoutExt ++ "_" ++ NilZero.string_of_int (Z.to_int (Date_now w)) ++ ext.

(** [SELECT * FROM gpkg_contents WHERE table_name = ?], first row. *)
Definition selectContents (db : Database) (name : string) : option ContentsRow :=
  find (fun c => (c_table_name c =? name)%string) (gpkg_contents db).

(** [SELECT * FROM gpkg_tile_matrix_set WHERE table_name = ?], first row. *)
Definition selectTileMatrixSet (db : Database) (name : string) : option TileMatrixSetRow :=
  find (fun s => (s_table_name s =? name)%string) (gpkg_tile_matrix_set db).

(** [SELECT * FROM gpkg_tile_matrix WHERE table_name = ?], all rows. *)
Definition selectTileMatrices (db : Database) (name : string) : list TileMatrixRow :=
  filter (fun m => (m_table_name m =? name)%string) (gpkg_tile_matrix db).

(** The values bound to the three INSERT OR REPLACE statements. *)
Definition contentsValues (now : string) (contentsEntry : ContentsRow)
    (sourceTableName targetTableName : string) : ContentsRow :=
  {| c_table_name := targetTableName;
     c_data_type := c_data_type contentsEntry;
     c_identifier := SqlText targetTableName;
     c_description := SqlText ("Merged tiles from " ++ sourceTableName);
     c_last_change := SqlText now;
     c_min_x := c_min_x contentsEntry;
     c_min_y := c_min_y contentsEntry;
     c_max_x := c_max_x contentsEntry;
     c_max_y := c_max_y contentsEntry;
     c_srs_id := c_srs_id contentsEntry |}.

Definition tileMatrixSetValues (tileMatrixSet : TileMatrixSetRow)
    (targetTableName : string) : TileMatrixSetRow :=
  {| s_table_name := targetTableName;
     s_srs_id := s_srs_id tileMatrixSet;
     s_min_x := s_min_x tileMatrixSet;
     s_min_y := s_min_y tileMatrixSet;
     s_max_x := s_max_x tileMatrixSet;
     s_max_y := s_max_y tileMatrixSet |}.

Definition tileMatrixValues (targetTableName : string) (matrix : TileMatrixRow)
  : TileMatrixRow :=
  {| m_table_name := targetTableName;
     m_zoom_level := m_zoom_level matrix;
     m_matrix_width := m_matrix_width matrix;
     m_matrix_height := m_matrix_height matrix;
     m_tile_width := m_tile_width matrix;
     m_tile_height := m_tile_height matrix;
     m_pixel_x_size := m_pixel_x_size matrix;
     m_pixel_y_size := m_pixel_y_size matrix |}.

(** The loop over the template's tile-matrix rows; it stops at the first
    statement that fails. *)
Fixpoint insertTileMatrices (targetTableName : string) (tileMatrices : list TileMatrixRow)
    (targetDb : Database) : Database * result unit :=
  match tileMatrices with
  | [] => (targetDb, Ok tt)
  | matrix :: rest =>
      match insertOrReplaceTileMatrix (tileMatrixValues targetTableName matrix) targetDb with
      | Throw e => (targetDb, Throw e)
      | Ok targetDb => insertTileMatrices targetTableName rest targetDb
      end
  end.

Definition copyTileMetadata (now : string) (sourceDb targetDb : Database)
    (sourceTableName targetTableName : string) : Database * result unit :=
  match selectContents sourceDb sourceTableName with
  | None =>
      (targetDb, Throw (Error ("No gpkg_contents entry found for table: " ++ sourceTableName)))
  | Some contentsEntry =>
      match insertOrReplaceContents
              (contentsValues now contentsEntry sourceTableName targetTableName) targetDb with
      | Throw e => (targetDb, Throw e)
      | Ok targetDb =>
          match selectTileMatrixSet sourceDb sourceTableName with
          | None =>
              (targetDb,
               Throw (Error ("No tile matrix set found for table: " ++ sourceTableName)))
          | Some tileMatrixSet =>
              match insertOrReplaceTileMatrixSet
                      (tileMatrixSetValues tileMatrixSet targetTableName) targetDb with
              | Throw e => (targetDb, Throw e)
              | Ok targetDb =>
                  let tileMatrices := selectTileMatrices sourceDb sourceTableName in
                  if (List.length tileMatrices =? 0)%nat then
                    (targetDb,
                     Throw (Error ("No tile matrix entries found for table: "
                                   ++ sourceTableName)))
                  else insertTileMatrices targetTableName tileMatrices targetDb
              end
          end
      end
  end.

(** [tables.find(table => getTableColumns(db, table.name).some(...))] *)
Definition findTileTable (db : Database) : option string :=
  find (fun name => isTileTable (getTableColumns db name)) (getDataTables db).

Definition createTileTable (now : string) (fs : FileSystem) (targetDb : Database)
    (tableName sourceFile1 sourceFile2 : string) : Database * result unit :=
  match execCreateTable targetDb tableName with
  | Throw e => (targetDb, Throw e)
  | Ok targetDb =>
      match fs sourceFile1, fs sourceFile2 with
      | Some sourceDb1, Some sourceDb2 =>
          let tileTable1 := findTileTable sourceDb1 in
          let tileTable2 := findTileTable sourceDb2 in
          let templateTable :=
            match tileTable1 with Some t => Some t | None => tileTable2 end in
          let templateDb :=
            match tileTable1 with Some _ => sourceDb1 | None => sourceDb2 end in
          match templateTable with
          | None => (targetDb, Throw (Error "No tile tables found for metadata template"))
          | Some name => copyTileMetadata now templateDb targetDb name tableName
          end
      | _, _ => (targetDb, Throw (SqliteError "unable to open database file"))
      end
  end.

Definition attachStatement (sourceFile : string) : string :=
  "ATTACH DATABASE '" ++ sourceFile ++ "' AS source_db".

(** The body of the loop over the source's data tables. *)
Fixpoint mergeTables (useIgnore : bool) (sourceDb source_db : Database)
    (targetTable : string) (sourceTables : list string)
    (targetDb : Database) (totalTiles : nat) : Database * result nat :=
  match sourceTables with
  | [] => (targetDb, Ok totalTiles)
  | table :: rest =>
      let cols := getTableColumns sourceDb table in
      if negb (isTileTable cols) then
        mergeTables useIgnore sourceDb source_db targetTable rest targetDb totalTiles
      else
        match insertSelect useIgnore targetDb targetTable source_db table with
        | (targetDb', Ok changes) =>
            mergeTables useIgnore sourceDb source_db targetTable rest targetDb'
                        (totalTiles + changes)
        | (targetDb', Throw e) => (targetDb', Throw e)
        end
  end.

Definition mergeTileData (fs : FileSystem) (targetDb : Database)
    (targetTable sourceFile sourceName : string) (useIgnore : bool)
  : Database * result nat :=
  match fs sourceFile with
  | None => (targetDb, Throw (SqliteError "unable to open database file"))
  | Some sourceDb =>
      let sourceTables := getDataTables sourceDb in
      match parse_attach (attachStatement sourceFile) with
      | None => (targetDb, Throw (SqliteError "near ATTACH: syntax error"))
      | Some attached =>
          let source_db :=
            match fs attached with Some d => d | None => empty_database end in
          mergeTables useIgnore sourceDb source_db targetTable sourceTables targetDb 0
      end
  end.

Definition cleanupExistingTables (targetDb : Database) : Database :=
  fold_left (fun db name => dropTable name db) (getDataTables targetDb) targetDb.

Definition finalizeGeoPackage (targetDb : Database) : Database :=
  {| tables := tables targetDb; gpkg_contents := gpkg_contents targetDb;
     gpkg_tile_matrix_set := gpkg_tile_matrix_set targetDb;
     gpkg_tile_matrix := gpkg_tile_matrix targetDb;
     srs_ids := srs_ids targetDb;
     application_id := 1196444487; user_version := 10300 |}.

(** [SELECT DISTINCT zoom_level ... ORDER BY zoom_level] *)
Fixpoint insertZoom (z : Z) (zs : list Z) : list Z :=
  match zs with
  | [] => [z]
  | x :: rest =>
      if (z <? x)%Z then z :: zs
      else if (z =? x)%Z then zs
      else x :: insertZoom z rest
  end.

Definition distinctZoomLevels (rs : list TileRow) : list Z :=
  fold_right insertZoom [] (map zoom_level rs).

(** An integer column read into a JavaScript number: the nearest double,
    ties to the even significand.  Integers up to 2^53 in magnitude are
    exact. *)
Definition jsNumber (z : Z) : Z :=
  if (Z.abs z <=? 2 ^ 53)%Z then z
  else
    let e := (Z.log2 (Z.abs z) - 52)%Z in
    let q := Z.shiftr (Z.abs z) e in
    let rest := (Z.abs z - Z.shiftl q e)%Z in
    let half := Z.shiftl 1 (e - 1) in
    let q' := if (half <? rest)%Z || ((rest =? half)%Z && Z.odd q) then (q + 1)%Z else q in
    (Z.sgn z * Z.shiftl q' e)%Z.

Definition tableRows (db : Database) (name : string) : list TileRow :=
  match findTable db name with
  | Some t => rows t
  | None => []
  end.

Record Report := {
  merged2 : nat;
  merged1 : nat;
  totalTiles : nat;
  zoomLevels : list Z;
  outputFile : string
}.

(** The inner try block: everything done through the output handle. *)
Definition mergeInto (w : World) (fs : FileSystem)
    (finalOutputFilename outputTableName file1 file2 : string)
    (targetDb : Database) : Database * result Report :=
  let targetDb := cleanupExistingTables targetDb in
  match createTileTable (datetime_now w) fs targetDb outputTableName file1 file2 with
  | (targetDb, Throw e) => (targetDb, Throw e)
  | (targetDb, Ok _) =>
      match mergeTileData fs targetDb outputTableName file2 (getFileName w file2) false with
      | (targetDb, Throw e) => (targetDb, Throw e)
      | (targetDb, Ok merged2) =>
          match mergeTileData fs targetDb outputTableName file1 (getFileName w file1) true with
          | (targetDb, Throw e) => (targetDb, Throw e)
          | (targetDb, Ok merged1) =>
              let targetDb := finalizeGeoPackage targetDb in
              if negb (integrity_check w targetDb =? "ok")%string then
                (targetDb, Throw (Error "Database integrity check failed"))
              else
                (targetDb,
                 Ok {| merged2 := merged2; merged1 := merged1;
                       totalTiles := List.length (tableRows targetDb outputTableName);
                       zoomLevels :=
                         map jsNumber
                             (distinctZoomLevels (tableRows targetDb outputTableName));
                       outputFile := finalOutputFilename |})
          end
      end
  end.

Record Outcome := {
  exitCode : Z;
  disk : FileSystem;
  thrown : option JsError;
  report : option Report
}.

(** The catch handler's choice of exit code. *)
Definition exitCodeOf (error : JsError) : Z :=
  match status error with
  | Some s => if (s =? BAD_REQUEST)%Z then 1%Z else 2%Z
  | None => 2%Z
  end.

Definition file1Of (args : list string) : string := nth 0 args "".
Definition file2Of (args : list string) : string := nth 1 args "".

(** [args[3] || 'merged_tiles'] *)
Definition outputTableNameOf (args : list string) : string :=
  match truthy (nth_error args 3) with
  | Some name => name
  | None => "merged_tiles"
  end.

Definition outputPath (w : World) (args : list string) : string :=
  ensureUniqueOutputFile w
    (createOutputFilename w (file1Of args) (file2Of args) (nth_error args 2)).

Definition main (w : World) (args : list string) : Outcome :=
  if (List.length args <? 2)%nat then
    {| exitCode := 1; disk := files w; thrown := None; report := None |}
  else
    let file1 := file1Of args in
    let file2 := file2Of args in
    let outputTableName := outputTableNameOf args in
    match validateFilesExist (files w) file1 file2 with
    | Throw e =>
        {| exitCode := exitCodeOf e; disk := files w; thrown := Some e; report := None |}
    | Ok _ =>
        let finalOutputFilename := outputPath w args in
        match files w file1 with
        | None =>
            let e := Error "ENOENT: no such file or directory" in
            {| exitCode := exitCodeOf e; disk := files w; thrown := Some e; report := None |}
        | Some bytes =>
            (* fs.copyFileSync(file1, finalOutputFilename) *)
            let fs := writeFile (files w) finalOutputFilename bytes in
            match mergeInto w fs finalOutputFilename outputTableName file1 file2 bytes with
            | (targetDb, Throw e) =>
                {| exitCode := exitCodeOf e;
                   disk := writeFile fs finalOutputFilename targetDb;
                   thrown := Some e; report := None |}
            | (targetDb, Ok r) =>
                {| exitCode := 0;
                   disk := writeFile fs finalOutputFilename targetDb;
                   thrown := None; report := Some r |}
            end
        end
    end.

(** ** Derived notions used in the statements *)

(** The rows the merge loop selects when it reads the table list from
    [sourceDb] and the rows from the attached [source_db]. *)
Definition selectedRows (sourceDb source_db : Database) (names : list string) : list TileRow :=
  flat_map
    (fun name => if isTileTable (getTableColumns sourceDb name)
                 then tableRows source_db name else [])
    names.

(** The pooled tile rows of a source: the rows of every data table that has
    a tile_data column, in the order the merge loop visits them. *)
Definition tileRows (db : Database) : list TileRow :=
  selectedRows db db (getDataTables db).

(** The template the metadata is copied from: the first source's first tile
    table, else the second source's. *)
Definition templateOf (A B : Database) : option (Database * string) :=
  match findTileTable A with
  | Some t => Some (A, t)
  | None =>
      match findTileTable B with
      | Some t => Some (B, t)
      | None => None
      end
  end.

(** Two databases with the same rows in the three catalog tables. *)
Definition sameCatalog (db db' : Database) : Prop :=
  gpkg_contents db' = gpkg_contents db
  /\ gpkg_tile_matrix_set db' = gpkg_tile_matrix_set db
  /\ gpkg_tile_matrix db' = gpkg_tile_matrix db.


(** Row counts per primary key in the three catalog tables. *)
Definition contentsCount (db : Database) (name : string) : nat :=
  List.length (filter (fun c => (c_table_name c =? name)%string) (gpkg_contents db)).



(** The destination table as the run leaves it on disk. *)
Definition outputDb (w : World) (args : list string) : option Database :=
  disk (main w args) (outputPath w args).

Definition mergedRows (w : World) (args : list string) : list TileRow :=
  match outputDb w args with
  | Some db => tableRows db (outputTableNameOf args)
  | None => []
  end.


Definition outputTableNames (w : World) (args : list string) : list string :=
  match outputDb w args with
  | Some db => map fst (tables db)
  | None => []
  end.

Fixpoint containsChar (c : ascii) (s : string) : bool :=
  match s with
  | EmptyString => false
  | String d s' => (d =? c)%char || containsChar c s'
  end.

(** A run that reads the databases [A] and [B] from its two input paths:
    both paths are free of single quotes, so that the ATTACH statement names
    the file itself, and the output path is not an existing file. *)
Record ReadsInputs (w : World) (args : list string) (A B : Database) : Prop := {
  two_arguments : 2 <= List.length args;
  first_input : files w (file1Of args) = Some A;
  second_input : files w (file2Of args) = Some B;
  first_path_plain : containsChar "'" (file1Of args) = false;
  second_path_plain : containsChar "'" (file2Of args) = false;
  output_is_new : files w (outputPath w args) = None
}.


Definition isMissingMetadata (e : JsError) (sourceTableName : string) : Prop :=
  e = Error ("No gpkg_contents entry found for table: " ++ sourceTableName)
  \/ e = Error ("No tile matrix set found for table: " ++ sourceTableName)
  \/ e = Error ("No tile matrix entries found for table: " ++ sourceTableName).

Definition NoTileTablesFound : JsError :=
  Error "No tile tables found for metadata template".

(** The errors the catalog's constraints raise. *)
Definition isConstraintError (e : JsError) : Prop :=
  e = foreignKeyFailed \/ exists table column, e = notNullFailed table column.

(** The rows of gpkg_contents that hold [name] as their identifier. *)
Definition identifiedAs (name : string) (c : ContentsRow) : bool :=
  sameText (c_identifier c) (SqlText name).

(** A pattern character that stands for itself: lower case already, and
    neither of the two wildcards. *)
Definition literalChar (c : ascii) : bool :=
  negb (c =? "%")%char && negb (c =? "_")%char && (lower c =? c)%char.

Fixpoint literalWord (s : string) : bool :=
  match s with
  | EmptyString => true
  | String c s' => literalChar c && literalWord s'
  end.

(** All rows a catalog table holds under a table name. *)
Definition contentsRows (db : Database) (name : string) : list ContentsRow :=
  filter (fun c => (c_table_name c =? name)%string) (gpkg_contents db).

Definition matrixSetRows (db : Database) (name : string) : list TileMatrixSetRow :=
  filter (fun s => (s_table_name s =? name)%string) (gpkg_tile_matrix_set db).



(** The same world with another integrity check. *)
Definition withIntegrity (w : World) (check : Database -> string) : World :=
  {| files := files w;
     path_basename := path_basename w;
     path_extname := path_extname w;
     Date_now := Date_now w;
     datetime_now := datetime_now w;
     integrity_check := check |}.


(** ** Concrete files used in the examples *)

Definition tile (z c r : Z) (d : string) : TileRow :=
  {| zoom_level := z; tile_column := c; tile_row := r;
     tile_data := list_byte_of_string d |}.

Definition contentsFor (name : string) : ContentsRow :=
  {| c_table_name := name; c_data_type := SqlText "tiles";
     c_identifier := SqlText name; c_description := SqlText "";
     c_last_change := SqlText "2020-01-01T00:00:00.000Z";
     c_min_x := SqlInteger (-180); c_min_y := SqlInteger (-90);
     c_max_x := SqlInteger 180; c_max_y := SqlInteger 90;
     c_srs_id := SqlInteger 4326 |}.

Definition matrixSetFor (name : string) : TileMatrixSetRow :=
  {| s_table_name := name; s_srs_id := SqlInteger 4326;
     s_min_x := SqlInteger (-180); s_min_y := SqlInteger (-90);
     s_max_x := SqlInteger 180; s_max_y := SqlInteger 90 |}.

Definition matrixFor (name : string) (z : Z) : TileMatrixRow :=
  {| m_table_name := name; m_zoom_level := z;
     m_matrix_width := SqlInteger (2 ^ z); m_matrix_height := SqlInteger (2 ^ z);
     m_tile_width := SqlInteger 256; m_tile_height := SqlInteger 256;
     m_pixel_x_size := SqlInteger 1; m_pixel_y_size := SqlInteger 1 |}.

Definition systemTable : Table := {| columns := ["srs_id"]; rows := [] |}.

(** A GeoPackage with the given user tables, all registered in the catalog
    with tile-matrix rows at the zoom levels [zs]. *)
Definition geopackage (user : list (string * Table)) (zs : list Z) : Database :=
  {| tables := (("gpkg_spatial_ref_sys", systemTable) :: user)%list;
     gpkg_contents := map (fun t => contentsFor (fst t)) user;
     gpkg_tile_matrix_set := map (fun t => matrixSetFor (fst t)) user;
     gpkg_tile_matrix := flat_map (fun t => map (matrixFor (fst t)) zs) user;
     srs_ids := [-1; 0; 4326]%Z;
     application_id := 0; user_version := 0 |}.

Definition tilesOf (rs : list TileRow) : Table :=
  {| columns := tileTableColumns; rows := rs |}.

Fixpoint filesOf (l : list (string * Database)) : FileSystem :=
  fun p =>
    match l with
    | [] => None
    | (q, db) :: rest => if (p =? q)%string then Some db else filesOf rest p
    end.

Definition twoFiles (p1 : string) (A : Database) (p2 : string) (B : Database) : FileSystem :=
  filesOf [(p1, A); (p2, B)].

Definition worldOf (fs : FileSystem) : World :=
  {| files := fs;
     path_basename := fun p _ => p;
     path_extname := fun _ => "";
     Date_now := 1700000000000;
     datetime_now := "2024-01-01 00:00:00";
     integrity_check := fun _ => "ok" |}.

(** The scenario of the specification: A holds (0,0,0)->"a"; B holds
    (0,0,0)->"b" and (1,0,1)->"c". *)
Definition scenarioA : Database :=
  geopackage [("tiles_a", tilesOf [tile 0 0 0 "a"])] [0%Z].

Definition scenarioB : Database :=
  geopackage [("tiles_b", tilesOf [tile 0 0 0 "b"; tile 1 0 1 "c"])] [0%Z; 1%Z].

Definition scenarioWorld : World :=
  worldOf (twoFiles "a.gpkg" scenarioA "b.gpkg" scenarioB).

Definition scenarioArgs : list string := ["a.gpkg"; "b.gpkg"; "out.gpkg"].



(** Two sources without any tile table. *)
Definition featuresOnly (name : string) : Database :=
  geopackage [(name, {| columns := ["fid"; "geom"]; rows := [] |})] [].

Definition noTilesWorld : World :=
  worldOf (twoFiles "a.gpkg" (featuresOnly "roads") "b.gpkg" (featuresOnly "rivers")).


(** A first source with a second data table named idxtiles. *)
Definition staleA : Database :=
  geopackage [("tiles_a", tilesOf [tile 0 0 0 "a"]);
              ("idxtiles", tilesOf [tile 5 0 0 "stale"])] [0%Z].

Definition staleWorld : World :=
  worldOf (twoFiles "a.gpkg" staleA "b.gpkg" scenarioB).

(** Second inputs whose paths contain single quotes. *)
Definition quoteWorld : World :=
  worldOf (twoFiles "a.gpkg" scenarioA "it's.gpkg" scenarioB).

Definition otherB : Database :=
  geopackage [("tiles_b", tilesOf [tile 2 0 0 "x"])] [2%Z].

Definition doubledQuoteWorld : World :=
  worldOf (filesOf [("a.gpkg", scenarioA); ("b''.gpkg", scenarioB); ("b'.gpkg", otherB)]).



(** The scenario with a storage engine that reports damage. *)
Definition corruptWorld : World :=
  withIntegrity scenarioWorld (fun _ => "row 1 missing from index 1").


(** A template with a content entry but no tile-matrix-set entry. *)
Definition halfRegistered : Database :=
  {| tables := [("tiles_h", tilesOf [tile 0 0 0 "h"])];
     gpkg_contents := [contentsFor "tiles_h"];
     gpkg_tile_matrix_set := [];
     gpkg_tile_matrix := [matrixFor "tiles_h" 0];
     srs_ids := [-1; 0; 4326]%Z;
     application_id := 0; user_version := 0 |}.












Local Open Scope list_scope.


(** * Properties *)

(** ** Keys and conflict resolution *)

Arguments key : simpl never.
Arguments key_eqb : simpl never.
Arguments insertRow : simpl never.
Arguments bulkInsert : simpl never.





Lemma insertRow_shift (u : bool) (t : list TileRow) (n : nat) (r : TileRow) :
  insertRow u (t, n) r
  = (fst (insertRow u (t, 0) r), n + snd (insertRow u (t, 0) r)).
Proof.
  unfold insertRow. destruct (hasKey (key r) t), u; cbn [fst snd]; f_equal; lia.
Qed.

Lemma fold_insertRow_shift (u : bool) (src t : list TileRow) (n : nat) :
  fold_left (insertRow u) src (t, n)
  = (fst (bulkInsert u t src), n + snd (bulkInsert u t src)).
Proof.
  unfold bulkInsert. revert t n.
  induction src as [|r src IH]; intros t n; simpl.
  - f_equal; lia.
  - rewrite (insertRow_shift u t n r).
    destruct (insertRow u (t, 0) r) as [t1 n1] eqn:E1; simpl.
    rewrite (IH t1 (n + n1)), (IH t1 n1); simpl. f_equal; lia.
Qed.


Lemma bulkInsert_app (u : bool) (t s1 s2 : list TileRow) :
  bulkInsert u t (s1 ++ s2)
  = (fst (bulkInsert u (fst (bulkInsert u t s1)) s2),
     snd (bulkInsert u t s1) + snd (bulkInsert u (fst (bulkInsert u t s1)) s2)).
Proof.
  unfold bulkInsert at 1. rewrite fold_left_app.
  fold (bulkInsert u t s1).
  destruct (bulkInsert u t s1) as [t1 n1]; simpl.
  apply fold_insertRow_shift.
Qed.

Lemma find_app {A : Type} (f : A -> bool) (l1 l2 : list A) :
  find f (l1 ++ l2) = match find f l1 with Some x => Some x | None => find f l2 end.
Proof.
  induction l1 as [|a l1 IH]; simpl; [reflexivity|].
  destruct (f a); auto.
Qed.





















(** ** Tables of a database *)

Lemma sameCatalog_refl (db : Database) : sameCatalog db db.
Proof. repeat split. Qed.

Lemma sameCatalog_trans (a b c : Database) :
  sameCatalog a b -> sameCatalog b c -> sameCatalog a c.
Proof.
  unfold sameCatalog. intros [H1 [H2 H3]] [H4 [H5 H6]].
  repeat split; congruence.
Qed.

Lemma find_setRows (T : string) (rs : list TileRow) (n : string) (l : list (string * Table)) :
  find (fun t => (fst t =? n)%string)
       (map (fun t => if (fst t =? T)%string
                      then (fst t, {| columns := columns (snd t); rows := rs |})
                      else t) l)
  = match find (fun t => (fst t =? n)%string) l with
    | Some t => Some (if (fst t =? T)%string
                      then (fst t, {| columns := columns (snd t); rows := rs |})
                      else t)
    | None => None
    end.
Proof.
  induction l as [|a l IH]; cbn [map find]; [reflexivity|].
  assert (Hfst : fst (if (fst a =? T)%string
                      then (fst a, {| columns := columns (snd a); rows := rs |})
                      else a) = fst a)
    by (destruct (fst a =? T)%string; reflexivity).
  rewrite Hfst. destruct (fst a =? n)%string; [reflexivity | exact IH].
Qed.

Lemma tableRows_setRows_same (db : Database) (T : string) (rs : list TileRow) (t : Table) :
  findTable db T = Some t -> tableRows (setRows T rs db) T = rs.
Proof.
  unfold tableRows, findTable, setRows. cbn [tables with_tables].
  rewrite find_setRows.
  destruct (find (fun t0 => (fst t0 =? T)%string) (tables db)) as [a|] eqn:F; [|discriminate].
  intros _. apply find_some in F. destruct F as [_ F]. rewrite F. reflexivity.
Qed.

Lemma findTable_setRows_other (db : Database) (T n : string) (rs : list TileRow) :
  n <> T -> findTable (setRows T rs db) n = findTable db n.
Proof.
  intros Hn. unfold findTable, setRows. cbn [tables with_tables].
  rewrite find_setRows.
  destruct (find (fun t0 => (fst t0 =? n)%string) (tables db)) as [a|] eqn:F; [|reflexivity].
  apply find_some in F. destruct F as [_ F]. apply String.eqb_eq in F.
  destruct (fst a =? T)%string eqn:E; [|reflexivity].
  apply String.eqb_eq in E. congruence.
Qed.

Lemma selectTiles_rows (db : Database) (name : string) (src : list TileRow) :
  selectTiles db name = Some src -> src = tableRows db name.
Proof.
  unfold selectTiles, tableRows. destruct (findTable db name) as [t|]; [|discriminate].
  destruct (hasTileColumns (columns t)); [|discriminate]. congruence.
Qed.

Lemma insertSelect_ok (u : bool) (db : Database) (T : string) (X : Database)
    (name : string) (db' : Database) (changes : nat) :
  insertSelect u db T X name = (db', Ok changes) ->
  tableRows db' T = fst (bulkInsert u (tableRows db T) (tableRows X name))
  /\ changes = snd (bulkInsert u (tableRows db T) (tableRows X name))
  /\ sameCatalog db db'
  /\ (forall o, o <> T -> findTable db' o = findTable db o).
Proof.
  unfold insertSelect.
  destruct (findTable db T) as [t|] eqn:FT.
  2:{ destruct (selectTiles X name); discriminate. }
  destruct (selectTiles X name) as [src|] eqn:FS; [|discriminate].
  apply selectTiles_rows in FS. subst src.
  destruct (hasTileColumns (columns t)); [|discriminate].
  assert (Hrows : tableRows db T = rows t) by (unfold tableRows; rewrite FT; reflexivity).
  rewrite Hrows.
  destruct (bulkInsert u (rows t) (tableRows X name)) as [rs n] eqn:B.
  intros H. inversion H; subst. cbn [fst snd].
  split; [eapply tableRows_setRows_same; exact FT|].
  split; [reflexivity|].
  split; [repeat split|].
  intros o Ho. apply findTable_setRows_other. exact Ho.
Qed.

(** The loop of [mergeTileData], when it completes. *)
Lemma mergeTables_ok (u : bool) (S X : Database) (T : string) (names : list string) :
  forall (db : Database) (n : nat) (db' : Database) (m : nat),
  mergeTables u S X T names db n = (db', Ok m) ->
  tableRows db' T = fst (bulkInsert u (tableRows db T) (selectedRows S X names))
  /\ m = n + snd (bulkInsert u (tableRows db T) (selectedRows S X names))
  /\ sameCatalog db db'
  /\ (forall o, o <> T -> findTable db' o = findTable db o).
Proof.
  induction names as [|name rest IH]; intros db n db' m; cbn [mergeTables].
  - intros H. inversion H; subst. unfold selectedRows. cbn [flat_map].
    unfold bulkInsert. cbn [fold_left fst snd].
    repeat split; auto.
  - unfold selectedRows. cbn [flat_map]. fold (selectedRows S X rest).
    destruct (isTileTable (getTableColumns S name)); cbn [negb].
    + destruct (insertSelect u db T X name) as [db1 [changes|e]] eqn:I; [|discriminate].
      apply insertSelect_ok in I. destruct I as [I1 [I2 [I3 I4]]].
      intros H. apply IH in H. destruct H as [H1 [H2 [H3 H4]]].
      rewrite bulkInsert_app. cbn [fst snd]. rewrite <- I1.
      split; [exact H1|].
      split; [rewrite H2, I2; lia|].
      split; [eapply sameCatalog_trans; eassumption|].
      intros o Ho. rewrite H4, I4 by exact Ho. reflexivity.
    + cbn [app]. apply IH.
Qed.

(** ** The ATTACH statement *)

Lemma lex_quoted_plain (q : ascii) (p rest : string) :
  containsChar q p = false ->
  (match rest with String c _ => (c =? q)%char | EmptyString => false end) = false ->
  lex_quoted q (p ++ String q rest)%string = Some (p, rest).
Proof.
  intros Hp Hrest. induction p as [|c p IH]; cbn [String.append lex_quoted].
  - rewrite Ascii.eqb_refl. destruct rest as [|c rest]; [reflexivity|].
    rewrite Hrest. reflexivity.
  - cbn [containsChar] in Hp. apply orb_false_iff in Hp. destruct Hp as [Hc Hp].
    rewrite Hc, (IH Hp). reflexivity.
Qed.

(** A path without a single quote is spliced into a well-formed statement
    that names the path itself. *)
Lemma parse_attach_plain (p : string) :
  containsChar "'" p = false -> parse_attach (attachStatement p) = Some p.
Proof.
  intros Hp. unfold parse_attach, attachStatement.
  cbn [String.append strip_prefix Ascii.eqb Bool.eqb].
  rewrite (lex_quoted_plain "'" p " AS source_db" Hp eq_refl).
  reflexivity.
Qed.

Lemma mergeTileData_ok (fs : FileSystem) (db : Database) (T f nm : string) (u : bool)
    (S : Database) (db' : Database) (m : nat) :
  fs f = Some S ->
  containsChar "'" f = false ->
  mergeTileData fs db T f nm u = (db', Ok m) ->
  tableRows db' T = fst (bulkInsert u (tableRows db T) (tileRows S))
  /\ m = snd (bulkInsert u (tableRows db T) (tileRows S))
  /\ sameCatalog db db'
  /\ (forall o, o <> T -> findTable db' o = findTable db o).
Proof.
  intros Hf Hq. unfold mergeTileData. rewrite Hf, (parse_attach_plain f Hq), Hf.
  intros H. apply mergeTables_ok in H. exact H.
Qed.


(** ** The Metadata Templater *)

Lemma filter_filter_none {A : Type} (p : A -> bool) (l : list A) :
  filter p (filter (fun x => negb (p x)) l) = [].
Proof.
  induction l as [|a l IH]; cbn [filter]; [reflexivity|].
  destruct (p a) eqn:E; cbn [negb filter]; [exact IH | rewrite E; exact IH].
Qed.

Lemma filter_filter_excluded {A : Type} (p q : A -> bool) (l : list A) :
  (forall x, p x = true -> q x = true) ->
  filter p (filter (fun x => negb (q x)) l) = [].
Proof.
  intros H. induction l as [|a l IH]; cbn [filter]; [reflexivity|].
  destruct (q a) eqn:Q; cbn [negb filter]; [exact IH|].
  destruct (p a) eqn:P; [apply H in P; congruence | exact IH].
Qed.

Lemma contentsConflict_name (r c : ContentsRow) :
  (c_table_name c =? c_table_name r)%string = true -> contentsConflict r c = true.
Proof. intros H. unfold contentsConflict. rewrite H. reflexivity. Qed.

Lemma contentsRows_replace (r : ContentsRow) (db : Database) :
  contentsRows (replaceContents r db) (c_table_name r) = [r].
Proof.
  unfold contentsRows, replaceContents. cbn [gpkg_contents with_contents].
  rewrite filter_app, (filter_filter_excluded _ (contentsConflict r)).
  - cbn [filter app]. rewrite String.eqb_refl. reflexivity.
  - intros x. apply contentsConflict_name.
Qed.










(** *** The three INSERT OR REPLACE statements *)

Lemma constraint_error_status (e : JsError) : isConstraintError e -> status e = None.
Proof. intros [->|[t [c ->]]]; reflexivity. Qed.

Lemma constraint_error_not_missing (e : JsError) (sn : string) :
  isConstraintError e -> ~ isMissingMetadata e sn.
Proof.
  intros [->|[t [c ->]]] [H|[H|H]]; unfold foreignKeyFailed, notNullFailed, SqliteError, Error in H;
    injection H as H; cbn in H; discriminate H.
Qed.

Lemma insertOrReplaceContents_ok (r : ContentsRow) (db db' : Database) :
  insertOrReplaceContents r db = Ok db' ->
  db' = replaceContents r db
  /\ isNull (c_data_type r) = false
  /\ srsRegistered db (c_srs_id r) = true
  /\ orphans r db = false.
Proof.
  unfold insertOrReplaceContents, firstNull. cbn [find snd fst].
  destruct (isNull (c_data_type r)); [discriminate|].
  destruct (srsRegistered db (c_srs_id r)); cbn [negb orb]; [|discriminate].
  destruct (orphans r db); [discriminate|].
  intros H. inversion H. auto.
Qed.


Lemma insertOrReplaceContents_throw (r : ContentsRow) (db : Database) (e : JsError) :
  insertOrReplaceContents r db = Throw e -> isConstraintError e.
Proof.
  unfold insertOrReplaceContents.
  destruct (firstNull _) as [col|].
  - intros H. inversion H. right. eauto.
  - destruct (_ || _); [|discriminate]. intros H. inversion H. left. reflexivity.
Qed.

Lemma insertOrReplaceTileMatrixSet_ok (r : TileMatrixSetRow) (db db' : Database) :
  insertOrReplaceTileMatrixSet r db = Ok db' -> db' = replaceTileMatrixSet r db.
Proof.
  unfold insertOrReplaceTileMatrixSet.
  destruct (firstNull _); [discriminate|].
  destruct (_ || _); [discriminate|]. intros H. inversion H. reflexivity.
Qed.

Lemma insertOrReplaceTileMatrixSet_throw (r : TileMatrixSetRow) (db : Database) (e : JsError) :
  insertOrReplaceTileMatrixSet r db = Throw e -> isConstraintError e.
Proof.
  unfold insertOrReplaceTileMatrixSet.
  destruct (firstNull _) as [col|].
  - intros H. inversion H. right. eauto.
  - destruct (_ || _); [|discriminate]. intros H. inversion H. left. reflexivity.
Qed.


Lemma insertOrReplaceTileMatrix_ok (r : TileMatrixRow) (db db' : Database) :
  insertOrReplaceTileMatrix r db = Ok db' -> db' = replaceTileMatrix r db.
Proof.
  unfold insertOrReplaceTileMatrix.
  destruct (firstNull _); [discriminate|].
  destruct (negb _); [discriminate|]. intros H. inversion H. reflexivity.
Qed.

Lemma insertOrReplaceTileMatrix_throw (r : TileMatrixRow) (db : Database) (e : JsError) :
  insertOrReplaceTileMatrix r db = Throw e -> isConstraintError e.
Proof.
  unfold insertOrReplaceTileMatrix.
  destruct (firstNull _) as [col|].
  - intros H. inversion H. right. eauto.
  - destruct (negb _); [|discriminate]. intros H. inversion H. left. reflexivity.
Qed.




Lemma insertTileMatrices_throw (tn : string) (ms : list TileMatrixRow) (db D' : Database)
    (e : JsError) :
  insertTileMatrices tn ms db = (D', Throw e) -> isConstraintError e.
Proof.
  revert db. induction ms as [|m ms IH]; intros db; cbn [insertTileMatrices].
  - discriminate.
  - destruct (insertOrReplaceTileMatrix (tileMatrixValues tn m) db) as [db1|e1] eqn:E.
    + apply IH.
    + intros H. inversion H; subst. eapply insertOrReplaceTileMatrix_throw; exact E.
Qed.

(** The loop touches gpkg_tile_matrix only, whatever its outcome. *)
Lemma insertTileMatrices_frame (tn : string) (ms : list TileMatrixRow) (db : Database) :
  let db' := fst (insertTileMatrices tn ms db) in
  tables db' = tables db
  /\ gpkg_contents db' = gpkg_contents db
  /\ gpkg_tile_matrix_set db' = gpkg_tile_matrix_set db
  /\ srs_ids db' = srs_ids db
  /\ application_id db' = application_id db
  /\ user_version db' = user_version db.
Proof.
  revert db. induction ms as [|m ms IH]; intros db; cbn [insertTileMatrices].
  - cbn. repeat split.
  - destruct (insertOrReplaceTileMatrix (tileMatrixValues tn m) db) as [db1|e] eqn:E.
    + apply insertOrReplaceTileMatrix_ok in E. subst db1.
      specialize (IH (replaceTileMatrix (tileMatrixValues tn m) db)). cbv zeta in *.
      exact IH.
    + cbn. repeat split.
Qed.


(** *** The Templater as a whole *)

(** What the Templater never touches, whatever its outcome. *)
Lemma copyTileMetadata_keeps (now : string) (S D : Database) (sn tn : string) :
  let D' := fst (copyTileMetadata now S D sn tn) in
  tables D' = tables D
  /\ srs_ids D' = srs_ids D
  /\ application_id D' = application_id D
  /\ user_version D' = user_version D.
Proof.
  unfold copyTileMetadata.
  destruct (selectContents S sn) as [c|]; [|cbn; repeat split].
  destruct (insertOrReplaceContents _ D) as [D1|e] eqn:E1; [|cbn; repeat split].
  apply insertOrReplaceContents_ok in E1. destruct E1 as [-> _].
  destruct (selectTileMatrixSet S sn) as [t|]; [|cbn; repeat split].
  destruct (insertOrReplaceTileMatrixSet _ _) as [D2|e] eqn:E2; [|cbn; repeat split].
  apply insertOrReplaceTileMatrixSet_ok in E2. subst D2.
  destruct (List.length (selectTileMatrices S sn) =? 0)%nat; [cbn; repeat split|].
  destruct (insertTileMatrices_frame tn (selectTileMatrices S sn)
              (replaceTileMatrixSet (tileMatrixSetValues t tn)
                 (replaceContents (contentsValues now c sn tn) D)))
    as [H1 [_ [_ [H2 [H3 H4]]]]].
  cbv zeta in *. rewrite H1, H2, H3, H4. repeat split.
Qed.

Lemma copyTileMetadata_tables (now : string) (S D : Database) (sn tn : string) :
  tables (fst (copyTileMetadata now S D sn tn)) = tables D.
Proof. apply (copyTileMetadata_keeps now S D sn tn). Qed.




(** Every error of the Templater is one of its three own errors or a
    constraint error of the catalog. *)
Lemma copyTileMetadata_errors (now : string) (S D : Database) (sn tn : string)
    (D' : Database) (e : JsError) :
  copyTileMetadata now S D sn tn = (D', Throw e) ->
  isMissingMetadata e sn \/ isConstraintError e.
Proof.
  unfold copyTileMetadata, isMissingMetadata.
  destruct (selectContents S sn) as [c|]; [|intros H; inversion H; auto].
  destruct (insertOrReplaceContents _ D) as [D1|e1] eqn:E1.
  2:{ intros H. inversion H; subst. right. eapply insertOrReplaceContents_throw; exact E1. }
  destruct (selectTileMatrixSet S sn) as [s|]; [|intros H; inversion H; auto].
  destruct (insertOrReplaceTileMatrixSet _ _) as [D2|e2] eqn:E2.
  2:{ intros H. inversion H; subst. right. eapply insertOrReplaceTileMatrixSet_throw; exact E2. }
  destruct (List.length (selectTileMatrices S sn) =? 0)%nat; [intros H; inversion H; auto|].
  intros H. right. eapply insertTileMatrices_throw; exact H.
Qed.


(** ** Cleanup of the clone *)

Lemma filter_filter {A : Type} (f g : A -> bool) (l : list A) :
  filter f (filter g l) = filter (fun x => g x && f x) l.
Proof.
  induction l as [|a l IH]; cbn [filter]; [reflexivity|].
  destruct (g a); cbn [filter andb]; [|exact IH].
  destruct (f a); rewrite IH; reflexivity.
Qed.

Lemma dropTables_tables (names : list string) (db : Database) :
  tables (fold_left (fun db name => dropTable name db) names db)
  = filter (fun t => negb (existsb (fun n => (fst t =? n)%string) names)) (tables db).
Proof.
  revert db. induction names as [|n rest IH]; intros db; cbn [fold_left existsb].
  - symmetry. apply forallb_filter_id. apply forallb_forall. reflexivity.
  - rewrite IH. unfold dropTable. cbn [tables with_tables].
    rewrite filter_filter. apply filter_ext. intros t.
    rewrite negb_orb. reflexivity.
Qed.

Lemma dropTables_catalog (names : list string) (db : Database) :
  let db' := fold_left (fun db name => dropTable name db) names db in
  sameCatalog db db' /\ application_id db' = application_id db
  /\ user_version db' = user_version db.
Proof.
  revert db. induction names as [|n rest IH]; intros db; cbn [fold_left].
  - repeat split.
  - specialize (IH (dropTable n db)). cbv zeta in IH. exact IH.
Qed.

Lemma cleanup_tables (db : Database) :
  tables (cleanupExistingTables db)
  = filter (fun t => negb (dataTableName (fst t))) (tables db).
Proof.
  unfold cleanupExistingTables. rewrite dropTables_tables.
  apply filter_ext_in. intros t Ht. f_equal.
  unfold getDataTables.
  destruct (dataTableName (fst t)) eqn:E.
  - apply existsb_exists. exists (fst t). split; [|apply String.eqb_refl].
    apply in_map. apply filter_In. auto.
  - destruct (existsb _ _) eqn:X; [|reflexivity].
    apply existsb_exists in X. destruct X as [n [Hn Heq]].
    apply String.eqb_eq in Heq. subst n.
    apply in_map_iff in Hn. destruct Hn as [t' [Hfst Ht']].
    apply filter_In in Ht'. destruct Ht' as [_ Hd]. rewrite Hfst in Hd. congruence.
Qed.

Lemma cleanup_catalog (db : Database) : sameCatalog db (cleanupExistingTables db).
Proof. apply (dropTables_catalog (getDataTables db) db). Qed.


(** A table the Inspector does not list is left as it is. *)
Lemma findTable_cleanup (db : Database) (name : string) :
  dataTableName name = false ->
  findTable (cleanupExistingTables db) name = findTable db name.
Proof.
  intros Hn. unfold findTable. rewrite cleanup_tables.
  induction (tables db) as [|a l IH]; cbn [filter]; [reflexivity|].
  destruct (dataTableName (fst a)) eqn:E; cbn [negb find].
  - destruct (fst a =? name)%string eqn:F; [|exact IH].
    apply String.eqb_eq in F. congruence.
  - destruct (fst a =? name)%string; [reflexivity | exact IH].
Qed.

Lemma like_percent (s : string) : like "%" s = true.
Proof.
  induction s as [|c s IH]; [reflexivity|].
  change (like "%" (String c s)) with (like "" (String c s) || like "%" s).
  rewrite IH. apply orb_true_r.
Qed.

(** Names that begin with one of the four reserved prefixes match the
    corresponding pattern. *)
Lemma reserved_prefix_not_data (name : string) :
  String.prefix "sqlite_" name = true \/ String.prefix "gpkg_" name = true
  \/ String.prefix "rtree_" name = true \/ String.prefix "idx_" name = true ->
  dataTableName name = false.
Proof.
  assert (P : forall pre s, String.prefix pre s = true -> exists rest, s = (pre ++ rest)%string).
  { induction pre as [|c pre IH]; intros s H.
    - exists s. reflexivity.
    - destruct s as [|d s]; [discriminate|]. cbn [String.prefix] in H.
      destruct (ascii_dec c d) as [->|]; [|discriminate].
      destruct (IH s H) as [rest ->]. exists rest. reflexivity. }
  unfold dataTableName.
  intros [H|[H|[H|H]]]; apply P in H; destruct H as [rest ->].
  - assert (E : like "sqlite_%" ("sqlite_" ++ rest)%string = true)
      by apply like_percent.
    rewrite E. reflexivity.
  - assert (E : like "gpkg_%" ("gpkg_" ++ rest)%string = true)
      by apply like_percent.
    rewrite E. apply andb_false_iff. left. apply andb_false_iff. left.
    apply andb_false_iff. right. reflexivity.
  - assert (E : like "rtree_%" ("rtree_" ++ rest)%string = true)
      by apply like_percent.
    rewrite E. apply andb_false_iff. left. apply andb_false_iff. right. reflexivity.
  - assert (E : like "idx_%" ("idx_" ++ rest)%string = true)
      by apply like_percent.
    rewrite E. apply andb_false_iff. right. reflexivity.
Qed.

(** ** Creation of the destination table *)

Lemma sameName_refl (a : string) : sameName a a = true.
Proof. unfold sameName. apply String.eqb_refl. Qed.

Lemma eqb_sameName (a b : string) : sameName a b = false -> (a =? b)%string = false.
Proof.
  intros H. destruct (a =? b)%string eqn:E; [|reflexivity].
  apply String.eqb_eq in E. subst. rewrite sameName_refl in H. discriminate.
Qed.

Lemma execCreateTable_ok (db : Database) (T : string) (db0 : Database) :
  execCreateTable db T = Ok db0 ->
  db0 = with_tables db (tables db ++ [(T, {| columns := tileTableColumns; rows := [] |})])
  /\ findTable db T = None
  /\ findTable db0 T = Some {| columns := tileTableColumns; rows := [] |}.
Proof.
  unfold execCreateTable.
  destruct (reservedName T); [discriminate|].
  destruct (tableExists db T) eqn:E; [discriminate|].
  intros H. inversion H; subst. clear H.
  unfold tableExists in E. apply orb_false_iff in E. destruct E as [E _].
  assert (F : find (fun t => (fst t =? T)%string) (tables db) = None).
  { induction (tables db) as [|a l IH]; [reflexivity|].
    cbn [existsb] in E. apply orb_false_iff in E. destruct E as [E1 E2].
    cbn [find]. rewrite (eqb_sameName _ _ E1). apply IH. exact E2. }
  split; [reflexivity|].
  unfold findTable. cbn [tables with_tables]. rewrite find_app, F.
  cbn [find fst snd]. rewrite String.eqb_refl. split; reflexivity.
Qed.

Lemma createTileTable_ok (now : string) (fs : FileSystem) (db : Database)
    (T f1 f2 : string) (A B db' : Database) :
  fs f1 = Some A -> fs f2 = Some B ->
  createTileTable now fs db T f1 f2 = (db', Ok tt) ->
  exists db0 tplDb tplName,
    execCreateTable db T = Ok db0
    /\ templateOf A B = Some (tplDb, tplName)
    /\ copyTileMetadata now tplDb db0 tplName T = (db', Ok tt).
Proof.
  intros H1 H2. unfold createTileTable, templateOf. rewrite H1, H2.
  destruct (execCreateTable db T) as [db0|e]; [|discriminate].
  destruct (findTileTable A) as [t|].
  - intros H. exists db0, A, t. auto.
  - destruct (findTileTable B) as [t|]; [|discriminate].
    intros H. exists db0, B, t. auto.
Qed.

(** ** The whole run *)

Lemma writeFile_same (fs : FileSystem) (p : string) (db : Database) :
  writeFile fs p db p = Some db.
Proof. unfold writeFile. rewrite String.eqb_refl. reflexivity. Qed.

Lemma writeFile_other (fs : FileSystem) (p q : string) (db : Database) :
  q <> p -> writeFile fs p db q = fs q.
Proof.
  intros H. unfold writeFile. destruct (q =? p)%string eqn:E; [|reflexivity].
  apply String.eqb_eq in E. contradiction.
Qed.

(** Writing the clone to a path that held no file leaves the inputs as
    they were. *)
Lemma read_after_clone (fs : FileSystem) (out f : string) (clone X : Database) :
  fs f = Some X -> fs out = None -> writeFile fs out clone f = Some X.
Proof.
  intros Hf Hout. rewrite writeFile_other; [exact Hf|].
  intros E. rewrite E in Hf. congruence.
Qed.

Lemma exitCodeOf_positive (e : JsError) : exitCodeOf e = 1%Z \/ exitCodeOf e = 2%Z.
Proof.
  unfold exitCodeOf. destruct (status e) as [s|]; [|auto].
  destruct (s =? BAD_REQUEST)%Z; auto.
Qed.

(** With both inputs present, the run is the inner block applied to the
    clone of the first input. *)
Lemma main_unfold (w : World) (args : list string) (A B : Database) :
  2 <= List.length args ->
  files w (file1Of args) = Some A ->
  files w (file2Of args) = Some B ->
  main w args
  = let fs := writeFile (files w) (outputPath w args) A in
    match mergeInto w fs (outputPath w args) (outputTableNameOf args)
                    (file1Of args) (file2Of args) A with
    | (targetDb, Throw e) =>
        {| exitCode := exitCodeOf e;
           disk := writeFile fs (outputPath w args) targetDb;
           thrown := Some e; report := None |}
    | (targetDb, Ok r) =>
        {| exitCode := 0;
           disk := writeFile fs (outputPath w args) targetDb;
           thrown := None; report := Some r |}
    end.
Proof.
  intros Hlen H1 H2. unfold main.
  destruct (List.length args <? 2)%nat eqn:L; [apply Nat.ltb_lt in L; lia|].
  unfold validateFilesExist, existsSync. rewrite H1, H2. cbn [negb orb].
  reflexivity.
Qed.

Lemma mergeInto_ok (w : World) (fs : FileSystem) (out T f1 f2 : string)
    (A0 db : Database) (r : Report) :
  mergeInto w fs out T f1 f2 A0 = (db, Ok r) ->
  exists db1 db2 db3,
    createTileTable (datetime_now w) fs (cleanupExistingTables A0) T f1 f2 = (db1, Ok tt)
    /\ mergeTileData fs db1 T f2 (getFileName w f2) false = (db2, Ok (merged2 r))
    /\ mergeTileData fs db2 T f1 (getFileName w f1) true = (db3, Ok (merged1 r))
    /\ db = finalizeGeoPackage db3
    /\ totalTiles r = List.length (tableRows db T).
Proof.
  unfold mergeInto.
  destruct (createTileTable _ _ _ _ _ _) as [db1 [[]|e]] eqn:C; [|discriminate].
  destruct (mergeTileData fs db1 _ _ _ false) as [db2 [m2|e]] eqn:M2; [|discriminate].
  destruct (mergeTileData fs db2 _ _ _ true) as [db3 [m1|e]] eqn:M1; [|discriminate].
  destruct (negb _); [discriminate|].
  intros H. inversion H; subst. cbn [merged2 merged1 totalTiles].
  exists db1, db2, db3. repeat split; assumption.
Qed.

(** What a successful run leaves behind, in terms of the two conflict
    policies applied to the pooled rows of B and then of A. *)
Lemma successful_run (w : World) (args : list string) (A B : Database) :
  ReadsInputs w args A B ->
  exitCode (main w args) = 0%Z ->
  exists (out : Database) (r : Report) (tplDb : Database) (tplName : string) (db0 : Database),
    outputDb w args = Some out
    /\ report (main w args) = Some r
    /\ tableRows out (outputTableNameOf args)
       = fst (bulkInsert true (fst (bulkInsert false [] (tileRows B))) (tileRows A))
    /\ merged2 r = snd (bulkInsert false [] (tileRows B))
    /\ merged1 r = snd (bulkInsert true (fst (bulkInsert false [] (tileRows B))) (tileRows A))
    /\ totalTiles r = List.length (tableRows out (outputTableNameOf args))
    /\ templateOf A B = Some (tplDb, tplName)
    /\ execCreateTable (cleanupExistingTables A) (outputTableNameOf args) = Ok db0
    /\ sameCatalog
         (fst (copyTileMetadata (datetime_now w) tplDb db0 tplName (outputTableNameOf args)))
         out
    /\ snd (copyTileMetadata (datetime_now w) tplDb db0 tplName (outputTableNameOf args))
       = Ok tt.
Proof.
  intros [Hlen H1 H2 Q1 Q2 Hnew] Hexit.
  unfold outputDb. rewrite (main_unfold w args A B Hlen H1 H2) in *. cbv zeta in *.
  set (out := outputPath w args) in *.
  set (T := outputTableNameOf args) in *.
  set (fs := writeFile (files w) out A) in *.
  assert (F1 : fs (file1Of args) = Some A).
  { unfold fs. apply read_after_clone; assumption. }
  assert (F2 : fs (file2Of args) = Some B).
  { unfold fs. apply read_after_clone; assumption. }
  destruct (mergeInto w fs out T (file1Of args) (file2Of args) A) as [db [r|e]] eqn:M.
  2:{ cbn [exitCode] in Hexit. destruct (exitCodeOf_positive e); lia. }
  cbn [disk report]. rewrite writeFile_same.
  apply mergeInto_ok in M. destruct M as [db1 [db2 [db3 [C [M2 [M1 [Hdb Htot]]]]]]].
  destruct (createTileTable_ok _ _ _ _ _ _ _ _ _ F1 F2 C) as [db0 [tplDb [tplName [X [Tp Cp]]]]].
  apply execCreateTable_ok in X as X'. destruct X' as [Hdb0 [_ Hfind0]].
  assert (R1 : tableRows db1 T = []).
  { unfold tableRows, findTable.
    pose proof (copyTileMetadata_tables (datetime_now w) tplDb db0 tplName T) as E.
    rewrite Cp in E. cbn [fst] in E. rewrite E.
    unfold findTable in Hfind0. rewrite Hfind0. reflexivity. }
  destruct (mergeTileData_ok _ _ _ _ _ _ _ _ _ F2 Q2 M2) as [R2 [N2 [S2 _]]].
  destruct (mergeTileData_ok _ _ _ _ _ _ _ _ _ F1 Q1 M1) as [R3 [N1 [S3 _]]].
  rewrite R1 in R2, N2. rewrite R2 in R3, N1.
  exists db, r, tplDb, tplName, db0.
  assert (Rdb : tableRows db T = tableRows db3 T) by (subst db; reflexivity).
  rewrite Cp. cbn [fst snd].
  repeat split; try assumption; try reflexivity; try congruence.
  - subst db. cbn [gpkg_contents finalizeGeoPackage].
    destruct S2 as [S2 _], S3 as [S3 _]. congruence.
  - subst db. cbn [gpkg_tile_matrix_set finalizeGeoPackage].
    destruct S2 as [_ [S2 _]], S3 as [_ [S3 _]]. congruence.
  - subst db. cbn [gpkg_tile_matrix finalizeGeoPackage].
    destruct S2 as [_ [_ S2]], S3 as [_ [_ S3]]. congruence.
Qed.


(** ** The merged tile table *)


Lemma scenario_reads : ReadsInputs scenarioWorld scenarioArgs scenarioA scenarioB.
Proof. constructor; [cbn; lia | reflexivity ..]. Qed.









(** ** The catalog of the output *)






(** ** Failing runs *)




(** Errors raised anywhere in the run carry no [status] property. *)
Lemma insertSelect_status (u : bool) (db : Database) (T : string) (X : Database)
    (name : string) (db' : Database) (e : JsError) :
  insertSelect u db T X name = (db', Throw e) -> status e = None.
Proof.
  unfold insertSelect.
  destruct (findTable db T) as [t|]; destruct (selectTiles X name) as [src|];
    try (intros H; inversion H; reflexivity).
  destruct (hasTileColumns (columns t)); [|intros H; inversion H; reflexivity].
  destruct (bulkInsert u (rows t) src). discriminate.
Qed.

Lemma mergeTables_status (u : bool) (S X : Database) (T : string) (names : list string) :
  forall (db : Database) (n : nat) (db' : Database) (e : JsError),
  mergeTables u S X T names db n = (db', Throw e) -> status e = None.
Proof.
  induction names as [|name rest IH]; intros db n db' e; cbn [mergeTables]; [discriminate|].
  destruct (negb (isTileTable (getTableColumns S name))); [apply IH|].
  destruct (insertSelect u db T X name) as [db1 [changes|e1]] eqn:I; [apply IH|].
  intros H. inversion H; subst. eapply insertSelect_status; exact I.
Qed.

Lemma mergeTileData_status (fs : FileSystem) (db : Database) (T f nm : string) (u : bool)
    (db' : Database) (e : JsError) :
  mergeTileData fs db T f nm u = (db', Throw e) -> status e = None.
Proof.
  unfold mergeTileData. destruct (fs f); [|intros H; inversion H; reflexivity].
  destruct (parse_attach (attachStatement f)); [|intros H; inversion H; reflexivity].
  apply mergeTables_status.
Qed.

Lemma createTileTable_status (now : string) (fs : FileSystem) (db : Database)
    (T f1 f2 : string) (db' : Database) (e : JsError) :
  createTileTable now fs db T f1 f2 = (db', Throw e) -> status e = None.
Proof.
  unfold createTileTable, execCreateTable.
  destruct (reservedName T); [intros H; inversion H; reflexivity|].
  destruct (tableExists db T); [intros H; inversion H; reflexivity|].
  destruct (fs f1); [|intros H; inversion H; reflexivity].
  destruct (fs f2); [|intros H; inversion H; reflexivity].
  destruct (match findTileTable d with Some t => Some t | None => findTileTable d0 end);
    [|intros H; inversion H; reflexivity].
  intros H. apply copyTileMetadata_errors in H.
  destruct H as [[ -> | [ -> | -> ] ]|H]; [reflexivity ..|].
  apply constraint_error_status. exact H.
Qed.

Lemma mergeInto_status (w : World) (fs : FileSystem) (out T f1 f2 : string)
    (A0 db : Database) (e : JsError) :
  mergeInto w fs out T f1 f2 A0 = (db, Throw e) -> status e = None.
Proof.
  unfold mergeInto.
  destruct (createTileTable _ _ _ _ _ _) as [db1 [[]|e1]] eqn:C.
  2:{ intros H; inversion H; subst. eapply createTileTable_status; exact C. }
  destruct (mergeTileData fs db1 _ _ _ false) as [db2 [m2|e2]] eqn:M2.
  2:{ intros H; inversion H; subst. eapply mergeTileData_status; exact M2. }
  destruct (mergeTileData fs db2 _ _ _ true) as [db3 [m1|e3]] eqn:M1.
  2:{ intros H; inversion H; subst. eapply mergeTileData_status; exact M1. }
  destruct (negb _); [|discriminate].
  intros H; inversion H; reflexivity.
Qed.

Lemma thrown_status (w : World) (args : list string) (e : JsError) :
  thrown (main w args) = Some e -> status e = None.
Proof.
  unfold main.
  destruct (List.length args <? 2)%nat; [discriminate|].
  destruct (validateFilesExist (files w) (file1Of args) (file2Of args)) as [[]|e0] eqn:V.
  2:{ cbn [thrown]. intros H; inversion H; subst.
      unfold validateFilesExist in V.
      destruct (negb _ || negb _); inversion V; reflexivity. }
  destruct (files w (file1Of args)) as [bytes|];
    [|cbn [thrown]; intros H; inversion H; reflexivity].
  destruct (mergeInto _ _ _ _ _ _ _) as [db [r|e1]] eqn:M; cbn [thrown]; [discriminate|].
  intros H; inversion H; subst. eapply mergeInto_status; exact M.
Qed.

(** C5, as the code has it.  The catch handler maps an error to exit code 1
    only when its [status] is BAD_REQUEST, and no error of the program
    carries a status: every run with at least two arguments exits with 0 on
    success and with 2 on any failure.  A missing input file and a failure
    during the merge both exit with code 2. *)
Theorem exit_codes_not_distinguished :
  (forall w args,
     exitCode (main w args)
     = if (List.length args <? 2)%nat then 1%Z
       else match thrown (main w args) with Some _ => 2%Z | None => 0%Z end)
  /\ thrown (main scenarioWorld ["a.gpkg"; "missing.gpkg"]%string)
     = Some (Error "Missing file(s): missing.gpkg")
  /\ exitCode (main scenarioWorld ["a.gpkg"; "missing.gpkg"]%string) = 2%Z
  /\ thrown (main noTilesWorld scenarioArgs) = Some NoTileTablesFound
  /\ exitCode (main noTilesWorld scenarioArgs) = 2%Z.
Proof.
  split; [|repeat split].
  intros w args.
  destruct (thrown (main w args)) as [e|] eqn:Th.
  - pose proof (thrown_status w args e Th) as St.
    revert Th. unfold main.
    destruct (List.length args <? 2)%nat; [reflexivity|].
    destruct (validateFilesExist _ _ _) as [[]|e0].
    2:{ cbn [thrown exitCode]. intros H; inversion H; subst.
        unfold exitCodeOf. rewrite St. reflexivity. }
    destruct (files w (file1Of args)) as [bytes|].
    2:{ cbn [thrown exitCode]. intros H; inversion H; subst. reflexivity. }
    destruct (mergeInto _ _ _ _ _ _ _) as [db [r|e1]]; cbn [thrown exitCode]; [discriminate|].
    intros H; inversion H; subst. unfold exitCodeOf. rewrite St. reflexivity.
  - revert Th. unfold main.
    destruct (List.length args <? 2)%nat; [reflexivity|].
    destruct (validateFilesExist _ _ _) as [[]|e0]; [|discriminate].
    destruct (files w (file1Of args)) as [bytes|]; [|discriminate].
    destruct (mergeInto _ _ _ _ _ _ _) as [db [r|e1]]; cbn [thrown exitCode];
      [reflexivity|discriminate].
Qed.


(** ** The Templater's contract *)














(** ** Reported counts *)







(** ** The cleanup step *)

(** No entry of [tables] under one of the four reserved prefixes is
    dropped. *)
Lemma cleanup_keeps_reserved_tables (db : Database) (name : string) :
  String.prefix "sqlite_" name = true \/ String.prefix "gpkg_" name = true
  \/ String.prefix "rtree_" name = true \/ String.prefix "idx_" name = true ->
  findTable (cleanupExistingTables db) name = findTable db name.
Proof. intros H. apply findTable_cleanup, reserved_prefix_not_data, H. Qed.




(** C9, as the code has it.  In the LIKE patterns of getDataTables the
    underscore is a one-character wildcard, so a data table named idxtiles,
    which carries none of the four reserved prefixes, is not listed by the
    Inspector: the cleanup leaves it in the clone, and the finished output
    holds it next to the merged table. *)
Theorem cleanup_keeps_wildcard_matches :
  String.prefix "sqlite_" "idxtiles" = false
  /\ String.prefix "gpkg_" "idxtiles" = false
  /\ String.prefix "rtree_" "idxtiles" = false
  /\ String.prefix "idx_" "idxtiles" = false
  /\ like "idx_%" "idxtiles" = true
  /\ getDataTables staleA = ["tiles_a"]%string
  /\ map fst (tables (cleanupExistingTables staleA))
     = ["gpkg_spatial_ref_sys"; "idxtiles"]%string
  /\ exitCode (main staleWorld scenarioArgs) = 0%Z
  /\ outputTableNames staleWorld scenarioArgs
     = ["gpkg_spatial_ref_sys"; "idxtiles"; "merged_tiles"]%string.
Proof. repeat split. Qed.

(** ** The ATTACH statement of the merge *)

(** C10, as the code has it.  A path may contain single quotes and still be
    spliced into a well-formed statement: with the quotes doubled the
    statement names another file, no SQL error is raised and the run
    succeeds, copying the tiles of that other file. *)
Lemma attach_quote_counterexample :
  containsChar "'" "b''.gpkg" = true
  /\ files doubledQuoteWorld "b''.gpkg"%string = Some scenarioB
  /\ parse_attach (attachStatement "b''.gpkg") = Some "b'.gpkg"%string
  /\ thrown (main doubledQuoteWorld ["a.gpkg"; "b''.gpkg"; "out.gpkg"]%string) = None
  /\ exitCode (main doubledQuoteWorld ["a.gpkg"; "b''.gpkg"; "out.gpkg"]%string) = 0%Z
  /\ mergedRows doubledQuoteWorld ["a.gpkg"; "b''.gpkg"; "out.gpkg"]%string
     = [tile 2 0 0 "x"; tile 0 0 0 "a"].
Proof. repeat split. Qed.

(** C10 (amended).  The ATTACH statement splices the source path between
    single quotes.  For every path without a single-quote character the
    statement is well-formed and names that very file.  For the existing
    source file it's.gpkg the statement is malformed: mergeTileData throws an
    SQL error whatever the destination is, and the run fails with exit code
    2.  A path whose quotes are doubled yields a well-formed statement that
    names a different file. *)
Theorem attach_statement_interpolation :
  (forall p, containsChar "'" p = false -> parse_attach (attachStatement p) = Some p)
  /\ (forall fs db T nm u S,
        fs "it's.gpkg"%string = Some S ->
        mergeTileData fs db T "it's.gpkg" nm u
        = (db, Throw (SqliteError "near ATTACH: syntax error")))
  /\ files quoteWorld "it's.gpkg"%string = Some scenarioB
  /\ thrown (main quoteWorld ["a.gpkg"; "it's.gpkg"; "out.gpkg"]%string)
     = Some (SqliteError "near ATTACH: syntax error")
  /\ exitCode (main quoteWorld ["a.gpkg"; "it's.gpkg"; "out.gpkg"]%string) = 2%Z
  /\ parse_attach (attachStatement "b''.gpkg") = Some "b'.gpkg"%string.
Proof.
  split; [exact parse_attach_plain|].
  split; [|repeat split].
  intros fs db T nm u S H. unfold mergeTileData. rewrite H. reflexivity.
Qed.

Lemma attach_statement_interpolation_witness :
  parse_attach (attachStatement "b.gpkg") = Some "b.gpkg"%string
  /\ (exists e, mergeTileData (files quoteWorld) scenarioA "merged_tiles" "it's.gpkg" "it's" false
                = (scenarioA, Throw e)).
Proof.
  destruct attach_statement_interpolation as [Hplain [Hquote _]].
  split.
  - apply Hplain. reflexivity.
  - eexists. apply (Hquote (files quoteWorld) scenarioA "merged_tiles"%string
                           "it's"%string false scenarioB eq_refl).
Defined.


(** * Further properties of the merge *)

(** ** What the two passes put into the destination table *)














(** ** The report of a successful run *)

Lemma main_success_inv (w : World) (args : list string) :
  exitCode (main w args) = 0%Z ->
  exists bytes db r,
    2 <= List.length args
    /\ files w (file1Of args) = Some bytes
    /\ mergeInto w (writeFile (files w) (outputPath w args) bytes) (outputPath w args)
                 (outputTableNameOf args) (file1Of args) (file2Of args) bytes
       = (db, Ok r)
    /\ outputDb w args = Some db
    /\ report (main w args) = Some r
    /\ thrown (main w args) = None.
Proof.
  unfold outputDb, main.
  destruct (List.length args <? 2)%nat eqn:L; [discriminate|].
  apply Nat.ltb_ge in L.
  destruct (validateFilesExist _ _ _) as [[]|e].
  2:{ cbn [exitCode]. intros H. destruct (exitCodeOf_positive e); lia. }
  destruct (files w (file1Of args)) as [bytes|].
  2:{ cbn [exitCode]. intros H. vm_compute in H. discriminate. }
  destruct (mergeInto _ _ _ _ _ _ _) as [db [r|e]] eqn:M; cbn [exitCode disk report thrown].
  - intros _. exists bytes, db, r. rewrite writeFile_same. repeat split; assumption.
  - intros H. destruct (exitCodeOf_positive e); lia.
Qed.

Lemma mergeInto_report (w : World) (fs : FileSystem) (out T f1 f2 : string)
    (A0 db : Database) (r : Report) :
  mergeInto w fs out T f1 f2 A0 = (db, Ok r) ->
  zoomLevels r = map jsNumber (distinctZoomLevels (tableRows db T))
  /\ outputFile r = out
  /\ integrity_check w db = "ok"%string
  /\ application_id db = 1196444487%Z
  /\ user_version db = 10300%Z.
Proof.
  unfold mergeInto.
  destruct (createTileTable _ _ _ _ _ _) as [db1 [[]|e]]; [|discriminate].
  destruct (mergeTileData fs db1 _ _ _ false) as [db2 [m2|e]]; [|discriminate].
  destruct (mergeTileData fs db2 _ _ _ true) as [db3 [m1|e]]; [|discriminate].
  destruct (integrity_check w (finalizeGeoPackage db3) =? "ok")%string eqn:I;
    cbn [negb]; [|discriminate].
  intros H. inversion H; subst. cbn [zoomLevels outputFile].
  apply String.eqb_eq in I. repeat split. exact I.
Qed.













(** ** What a merge call leaves alone *)










(** ** Sources without usable tile tables *)









(** ** The Templater's writes, row by row *)

Lemma filter_other_name {A : Type} (nameOf : A -> string) (n tn : string) (l : list A) :
  n <> tn ->
  filter (fun x => (nameOf x =? n)%string)
         (filter (fun x => negb (nameOf x =? tn)%string) l)
  = filter (fun x => (nameOf x =? n)%string) l.
Proof.
  intros Hn. induction l as [|a l IH]; cbn [filter]; [reflexivity|].
  destruct (nameOf a =? tn)%string eqn:E; cbn [negb filter].
  - apply String.eqb_eq in E.
    destruct (nameOf a =? n)%string eqn:F; [|exact IH].
    apply String.eqb_eq in F. congruence.
  - destruct (nameOf a =? n)%string; [f_equal|]; exact IH.
Qed.

Lemma find_filter_negb {A : Type} (p : A -> bool) (l : list A) :
  find p (filter (fun x => negb (p x)) l) = None.
Proof.
  induction l as [|a l IH]; cbn [filter]; [reflexivity|].
  destruct (p a) eqn:E; cbn [negb find]; [exact IH | rewrite E; exact IH].
Qed.

Lemma selectTileMatrixSet_replace (r : TileMatrixSetRow) (db : Database) :
  selectTileMatrixSet (replaceTileMatrixSet r db) (s_table_name r) = Some r.
Proof.
  unfold selectTileMatrixSet, replaceTileMatrixSet.
  cbn [gpkg_tile_matrix_set with_tile_matrix_set].
  rewrite find_app.
  rewrite (find_filter_negb (fun s => (s_table_name s =? s_table_name r)%string)).
  cbn [find]. rewrite String.eqb_refl. reflexivity.
Qed.

(** Under another table name, replacing a gpkg_contents row deletes the
    rows that hold the new row's identifier and nothing else. *)
Lemma contentsRows_replace_other (r : ContentsRow) (db : Database) (n : string) :
  n <> c_table_name r ->
  contentsRows (replaceContents r db) n
  = filter (fun c => negb (sameText (c_identifier c) (c_identifier r))) (contentsRows db n).
Proof.
  intros Hn. unfold contentsRows, replaceContents. cbn [gpkg_contents with_contents].
  rewrite filter_app. cbn [filter]. destruct (c_table_name r =? n)%string eqn:E.
  { apply String.eqb_eq in E. congruence. }
  rewrite app_nil_r, !filter_filter. apply filter_ext. intros c.
  unfold contentsConflict.
  destruct (c_table_name c =? n)%string eqn:F; [|rewrite andb_false_r; reflexivity].
  apply String.eqb_eq in F.
  destruct (c_table_name c =? c_table_name r)%string eqn:G.
  { apply String.eqb_eq in G. congruence. }
  cbn [orb andb]. rewrite andb_true_r. reflexivity.
Qed.

Lemma matrixSetRows_replace_other (r : TileMatrixSetRow) (db : Database) (n : string) :
  n <> s_table_name r ->
  matrixSetRows (replaceTileMatrixSet r db) n = matrixSetRows db n.
Proof.
  intros Hn. unfold matrixSetRows, replaceTileMatrixSet.
  cbn [gpkg_tile_matrix_set with_tile_matrix_set].
  rewrite filter_app, (filter_other_name s_table_name) by exact Hn.
  cbn [filter]. destruct (s_table_name r =? n)%string eqn:E.
  - apply String.eqb_eq in E. congruence.
  - apply app_nil_r.
Qed.

Lemma selectTileMatrices_replace_other (r : TileMatrixRow) (db : Database) (n : string) :
  n <> m_table_name r ->
  selectTileMatrices (replaceTileMatrix r db) n = selectTileMatrices db n.
Proof.
  intros Hn. unfold selectTileMatrices, replaceTileMatrix.
  cbn [gpkg_tile_matrix with_tile_matrix].
  rewrite filter_app. cbn [filter].
  destruct (m_table_name r =? n)%string eqn:E.
  { apply String.eqb_eq in E. congruence. }
  rewrite app_nil_r.
  induction (gpkg_tile_matrix db) as [|a l IH]; cbn [filter]; [reflexivity|].
  destruct (same_matrix_key a r) eqn:K; cbn [negb filter].
  - unfold same_matrix_key in K. apply andb_true_iff in K. destruct K as [K _].
    apply String.eqb_eq in K. rewrite K, E. exact IH.
  - destruct (m_table_name a =? n)%string; [f_equal|]; exact IH.
Qed.

Lemma insertTileMatrices_other (tn n : string) (ms : list TileMatrixRow) (db : Database) :
  n <> tn ->
  selectTileMatrices (fst (insertTileMatrices tn ms db)) n = selectTileMatrices db n.
Proof.
  intros Hn. revert db.
  induction ms as [|m ms IH]; intros db; cbn [insertTileMatrices]; [reflexivity|].
  destruct (insertOrReplaceTileMatrix (tileMatrixValues tn m) db) as [db1|e] eqn:E;
    [|reflexivity].
  apply insertOrReplaceTileMatrix_ok in E. subst db1.
  rewrite IH. apply selectTileMatrices_replace_other. exact Hn.
Qed.

(** What a Templater call does under the other table names. *)
Lemma copyTileMetadata_other_names (now : string) (S D : Database) (sn tn n : string) :
  n <> tn ->
  (contentsRows (fst (copyTileMetadata now S D sn tn)) n = contentsRows D n
   \/ contentsRows (fst (copyTileMetadata now S D sn tn)) n
      = filter (fun c => negb (identifiedAs tn c)) (contentsRows D n))
  /\ (forall D', copyTileMetadata now S D sn tn = (D', Ok tt) ->
        contentsRows D' n = filter (fun c => negb (identifiedAs tn c)) (contentsRows D n))
  /\ matrixSetRows (fst (copyTileMetadata now S D sn tn)) n = matrixSetRows D n
  /\ selectTileMatrices (fst (copyTileMetadata now S D sn tn)) n
     = selectTileMatrices D n.
Proof.
  intros Hn. unfold copyTileMetadata.
  destruct (selectContents S sn) as [c|]; [|cbn [fst]; repeat split; [auto | discriminate]].
  destruct (insertOrReplaceContents _ D) as [D1|e] eqn:E1;
    [|cbn [fst]; repeat split; [auto | discriminate]].
  apply insertOrReplaceContents_ok in E1. destruct E1 as [-> _].
  pose proof (contentsRows_replace_other (contentsValues now c sn tn) D n Hn) as Hc.
  change (fun c0 => negb (sameText (c_identifier c0)
                            (c_identifier (contentsValues now c sn tn))))
    with (fun c0 => negb (identifiedAs tn c0)) in Hc.
  destruct (selectTileMatrixSet S sn) as [s|];
    [|cbn [fst]; repeat split; [auto | discriminate]].
  destruct (insertOrReplaceTileMatrixSet _ _) as [D2|e] eqn:E2;
    [|cbn [fst]; repeat split; [auto | discriminate]].
  apply insertOrReplaceTileMatrixSet_ok in E2. subst D2.
  set (base := replaceTileMatrixSet (tileMatrixSetValues s tn)
                 (replaceContents (contentsValues now c sn tn) D)).
  assert (Hc' : contentsRows base n
                = filter (fun c => negb (identifiedAs tn c)) (contentsRows D n)) by exact Hc.
  assert (Hs : matrixSetRows base n = matrixSetRows D n).
  { unfold base. rewrite (matrixSetRows_replace_other (tileMatrixSetValues s tn)) by exact Hn.
    reflexivity. }
  assert (Hm : selectTileMatrices base n = selectTileMatrices D n) by reflexivity.
  destruct (List.length (selectTileMatrices S sn) =? 0)%nat;
    [cbn [fst]; repeat split; [auto | discriminate | exact Hs]|].
  destruct (insertTileMatrices_frame tn (selectTileMatrices S sn) base) as [_ [Fc [Fs _]]].
  cbv zeta in *.
  assert (Hc2 : contentsRows (fst (insertTileMatrices tn (selectTileMatrices S sn) base)) n
                = filter (fun c => negb (identifiedAs tn c)) (contentsRows D n)).
  { unfold contentsRows in *. rewrite Fc. exact Hc'. }
  split; [right; exact Hc2|]. split.
  { intros D' H. rewrite H in Hc2. exact Hc2. }
  split.
  - unfold matrixSetRows in *. rewrite Fs. exact Hs.
  - rewrite insertTileMatrices_other by exact Hn. exact Hm.
Qed.

(** X11 (frame of the Templater).  Whatever its outcome, a Templater call
    leaves the target's tables alone and, under every table name other than
    the new one, the rows of gpkg_tile_matrix_set and gpkg_tile_matrix; of
    the gpkg_contents rows under another name it deletes at most those that
    hold the new name as their identifier, and a call that returns normally
    has deleted exactly those. *)
Theorem copyTileMetadata_frame (now : string) (S D : Database) (sn tn : string) :
  tables (fst (copyTileMetadata now S D sn tn)) = tables D
  /\ forall n, n <> tn ->
       (contentsRows (fst (copyTileMetadata now S D sn tn)) n = contentsRows D n
        \/ contentsRows (fst (copyTileMetadata now S D sn tn)) n
           = filter (fun c => negb (identifiedAs tn c)) (contentsRows D n))
       /\ (forall D', copyTileMetadata now S D sn tn = (D', Ok tt) ->
             contentsRows D' n
             = filter (fun c => negb (identifiedAs tn c)) (contentsRows D n))
       /\ matrixSetRows (fst (copyTileMetadata now S D sn tn)) n = matrixSetRows D n
       /\ selectTileMatrices (fst (copyTileMetadata now S D sn tn)) n
          = selectTileMatrices D n.
Proof.
  split; [apply copyTileMetadata_tables|].
  intros n Hn. apply copyTileMetadata_other_names. exact Hn.
Qed.

Lemma copyTileMetadata_frame_witness :
  matrixSetRows (fst (copyTileMetadata "2024-01-01 00:00:00" scenarioB scenarioA
                        "tiles_b" "merged_tiles")) "tiles_a"
  = [matrixSetFor "tiles_a"].
Proof.
  destruct (copyTileMetadata_frame "2024-01-01 00:00:00"%string scenarioB scenarioA
              "tiles_b"%string "merged_tiles"%string) as [_ H].
  destruct (H "tiles_a"%string) as [_ [_ [Hs _]]]; [discriminate|].
  rewrite Hs. reflexivity.
Defined.

(** X12 (the Templater's writes are not atomic).  A call that fails for a
    missing piece keeps what it wrote before the piece was missed: when it
    throws "No tile matrix set found", the gpkg_contents row is already in
    the target's catalog; when it throws "No tile matrix entries found",
    both the gpkg_contents row and the gpkg_tile_matrix_set row are. *)
Theorem copyTileMetadata_partial_write :
  (forall now S D sn tn D',
     copyTileMetadata now S D sn tn
     = (D', Throw (Error ("No tile matrix set found for table: " ++ sn))) ->
     exists c,
       selectContents S sn = Some c
       /\ selectTileMatrixSet S sn = None
       /\ contentsRows D' tn
          = [ {| c_table_name := tn;
                 c_data_type := c_data_type c;
                 c_identifier := SqlText tn;
                 c_description := SqlText ("Merged tiles from " ++ sn);
                 c_last_change := SqlText now;
                 c_min_x := c_min_x c; c_min_y := c_min_y c;
                 c_max_x := c_max_x c; c_max_y := c_max_y c;
                 c_srs_id := c_srs_id c |} ]
       /\ gpkg_tile_matrix_set D' = gpkg_tile_matrix_set D
       /\ gpkg_tile_matrix D' = gpkg_tile_matrix D)
  /\ (forall now S D sn tn D',
        copyTileMetadata now S D sn tn
        = (D', Throw (Error ("No tile matrix entries found for table: " ++ sn))) ->
        exists c s,
          selectContents S sn = Some c
          /\ selectTileMatrixSet S sn = Some s
          /\ selectTileMatrices S sn = []
          /\ contentsRows D' tn
             = [ {| c_table_name := tn;
                    c_data_type := c_data_type c;
                    c_identifier := SqlText tn;
                    c_description := SqlText ("Merged tiles from " ++ sn);
                    c_last_change := SqlText now;
                    c_min_x := c_min_x c; c_min_y := c_min_y c;
                    c_max_x := c_max_x c; c_max_y := c_max_y c;
                    c_srs_id := c_srs_id c |} ]
          /\ matrixSetRows D' tn
             = [ {| s_table_name := tn;
                    s_srs_id := s_srs_id s;
                    s_min_x := s_min_x s; s_min_y := s_min_y s;
                    s_max_x := s_max_x s; s_max_y := s_max_y s |} ]
          /\ gpkg_tile_matrix D' = gpkg_tile_matrix D).
Proof.
  assert (Hset : forall sn, isMissingMetadata
                   (Error ("No tile matrix set found for table: " ++ sn)) sn)
    by (intros sn; right; left; reflexivity).
  assert (Hent : forall sn, isMissingMetadata
                   (Error ("No tile matrix entries found for table: " ++ sn)) sn)
    by (intros sn; right; right; reflexivity).
  split.
  - intros now S D sn tn D'. unfold copyTileMetadata.
    destruct (selectContents S sn) as [c|];
      [|intros H; injection H as _ H; cbn in H; discriminate H].
    destruct (insertOrReplaceContents _ D) as [D1|e] eqn:E1.
    2:{ intros H. injection H as _ H. subst e. apply insertOrReplaceContents_throw in E1.
        contradiction (constraint_error_not_missing _ sn E1 (Hset sn)). }
    apply insertOrReplaceContents_ok in E1. destruct E1 as [-> _].
    destruct (selectTileMatrixSet S sn) as [s|].
    2:{ intros H. injection H as <-. exists c. split; [reflexivity|]. split; [reflexivity|].
        split; [apply (contentsRows_replace (contentsValues now c sn tn) D)|].
        split; reflexivity. }
    destruct (insertOrReplaceTileMatrixSet _ _) as [D2|e] eqn:E2.
    2:{ intros H. injection H as _ H. subst e. apply insertOrReplaceTileMatrixSet_throw in E2.
        contradiction (constraint_error_not_missing _ sn E2 (Hset sn)). }
    destruct (List.length (selectTileMatrices S sn) =? 0)%nat;
      [intros H; injection H as _ H; cbn in H; discriminate H|].
    intros H. apply insertTileMatrices_throw in H.
    contradiction (constraint_error_not_missing _ sn H (Hset sn)).
  - intros now S D sn tn D'. unfold copyTileMetadata.
    destruct (selectContents S sn) as [c|];
      [|intros H; injection H as _ H; cbn in H; discriminate H].
    destruct (insertOrReplaceContents _ D) as [D1|e] eqn:E1.
    2:{ intros H. injection H as _ H. subst e. apply insertOrReplaceContents_throw in E1.
        contradiction (constraint_error_not_missing _ sn E1 (Hent sn)). }
    apply insertOrReplaceContents_ok in E1. destruct E1 as [-> _].
    destruct (selectTileMatrixSet S sn) as [s|];
      [|intros H; injection H as _ H; cbn in H; discriminate H].
    destruct (insertOrReplaceTileMatrixSet _ _) as [D2|e] eqn:E2.
    2:{ intros H. injection H as _ H. subst e. apply insertOrReplaceTileMatrixSet_throw in E2.
        contradiction (constraint_error_not_missing _ sn E2 (Hent sn)). }
    apply insertOrReplaceTileMatrixSet_ok in E2. subst D2.
    destruct (selectTileMatrices S sn) as [|m ms] eqn:M; cbn [List.length Nat.eqb].
    2:{ intros H. apply insertTileMatrices_throw in H.
        contradiction (constraint_error_not_missing _ sn H (Hent sn)). }
    intros H. injection H as <-. exists c, s.
    split; [reflexivity|]. split; [reflexivity|]. split; [reflexivity|].
    split; [apply (contentsRows_replace (contentsValues now c sn tn) D)|].
    split; [|reflexivity].
    unfold matrixSetRows, replaceTileMatrixSet.
    cbn [gpkg_tile_matrix_set with_tile_matrix_set].
    rewrite filter_app, filter_filter_none. cbn [filter app tileMatrixSetValues s_table_name].
    rewrite String.eqb_refl. reflexivity.
Qed.

Lemma copyTileMetadata_partial_write_witness :
  exists D',
    copyTileMetadata "2024-01-01 00:00:00" halfRegistered scenarioA "tiles_h" "merged_tiles"
    = (D', Throw (Error "No tile matrix set found for table: tiles_h"))
    /\ contentsCount D' "merged_tiles" = 1.
Proof.
  destruct copyTileMetadata_partial_write as [H _].
  eexists. split; [reflexivity|].
  destruct (H "2024-01-01 00:00:00"%string halfRegistered scenarioA
              "tiles_h"%string "merged_tiles"%string _ eq_refl)
    as [c [_ [_ [Hrows _]]]].
  unfold contentsCount. unfold contentsRows in Hrows. rewrite Hrows. reflexivity.
Defined.


(** ** The finished output file *)










(** X15 (catalog rows of dropped tables stay).  The cleanup drops tables but
    not their catalog rows: after a successful run, under every name other
    than the destination table's, gpkg_tile_matrix_set and gpkg_tile_matrix
    hold exactly the rows they held in A, and gpkg_contents holds exactly
    the rows it held in A except those whose identifier is the destination
    table's name, which UNIQUE (identifier) makes the new row replace; this
    includes the rows of tables that are no longer in the file. *)
Theorem stale_catalog_rows_stay (w : World) (args : list string) (A B : Database) :
  ReadsInputs w args A B ->
  exitCode (main w args) = 0%Z ->
  exists out,
    outputDb w args = Some out
    /\ forall n, n <> outputTableNameOf args ->
         contentsRows out n
         = filter (fun c => negb (identifiedAs (outputTableNameOf args) c)) (contentsRows A n)
         /\ matrixSetRows out n = matrixSetRows A n
         /\ selectTileMatrices out n = selectTileMatrices A n.
Proof.
  intros Hreads Hexit.
  destruct (successful_run w args A B Hreads Hexit)
    as [out [r [tplDb [tplName [db0 [Hout [_ [_ [_ [_ [_ [_ [Hcreate [Hcat Hok]]]]]]]]]]]]]].
  exists out. split; [exact Hout|].
  intros n Hn.
  destruct (copyTileMetadata_other_names (datetime_now w) tplDb db0 tplName
              (outputTableNameOf args) n Hn) as [_ [K1 [K2 K3]]].
  destruct (copyTileMetadata (datetime_now w) tplDb db0 tplName (outputTableNameOf args))
    as [D' res] eqn:C.
  cbn [fst snd] in *. subst res. specialize (K1 D' eq_refl).
  assert (HA : sameCatalog A db0).
  { apply execCreateTable_ok in Hcreate. destruct Hcreate as [-> _].
    apply (cleanup_catalog A). }
  destruct Hcat as [C1 [C2 C3]]. destruct HA as [A1 [A2 A3]].
  unfold contentsRows, matrixSetRows, selectTileMatrices in *.
  rewrite C1, C2, C3, K1, K2, K3, A1, A2, A3. repeat split.
Qed.

Lemma stale_catalog_rows_stay_witness :
  exists out,
    outputDb scenarioWorld scenarioArgs = Some out
    /\ findTable out "tiles_a" = None
    /\ contentsRows out "tiles_a" = [contentsFor "tiles_a"].
Proof.
  destruct (stale_catalog_rows_stay scenarioWorld scenarioArgs scenarioA scenarioB
              scenario_reads eq_refl) as [out [Hout Hrows]].
  exists out. split; [exact Hout|]. split.
  - vm_compute in Hout. injection Hout as <-. reflexivity.
  - destruct (Hrows "tiles_a"%string) as [Hc _]; [discriminate|].
    rewrite Hc. reflexivity.
Defined.

(** X16 (what success guarantees).  A run ends with exit code 0 only with an
    output file on disk that passed the integrity check and carries the
    GeoPackage application id 1196444487 ("GPKG") and user version 10300,
    whatever A's clone carried. *)
Theorem success_means_checked_and_stamped (w : World) (args : list string) :
  exitCode (main w args) = 0%Z ->
  exists out r,
    outputDb w args = Some out
    /\ report (main w args) = Some r
    /\ outputFile r = outputPath w args
    /\ integrity_check w out = "ok"%string
    /\ application_id out = 1196444487%Z
    /\ user_version out = 10300%Z.
Proof.
  intros Hexit.
  destruct (main_success_inv w args Hexit) as [bytes [db [r [_ [_ [M [Hout [Hr _]]]]]]]].
  apply mergeInto_report in M. destruct M as [_ [Hf [Hi [Ha Hu]]]].
  exists db, r. repeat split; assumption.
Qed.

Lemma success_means_checked_and_stamped_witness :
  exists out,
    outputDb scenarioWorld scenarioArgs = Some out
    /\ application_id out = 1196444487%Z.
Proof.
  destruct (success_means_checked_and_stamped scenarioWorld scenarioArgs eq_refl)
    as [out [r [Hout [_ [_ [_ [Ha _]]]]]]].
  exists out. split; assumption.
Defined.


(** ** Failure after the merge, and what a run writes *)

(** X17 (a failed integrity check keeps the file).  If a run would succeed
    with a sound storage engine, and the integrity check of the actual
    engine rejects the database that run produces, then the actual run fails
    with the integrity error and exit code 2, reports nothing, and leaves
    that very database, merged and stamped, at the output path. *)
Theorem integrity_failure_keeps_output (w : World) (args : list string) (out : Database) :
  exitCode (main (withIntegrity w (fun _ => "ok"%string)) args) = 0%Z ->
  outputDb (withIntegrity w (fun _ => "ok"%string)) args = Some out ->
  integrity_check w out <> "ok"%string ->
  thrown (main w args) = Some (Error "Database integrity check failed")
  /\ exitCode (main w args) = 2%Z
  /\ report (main w args) = None
  /\ outputDb w args = Some out.
Proof.
  unfold outputDb.
  change (outputPath (withIntegrity w (fun _ => "ok"%string)) args) with (outputPath w args).
  unfold main.
  change (files (withIntegrity w (fun _ => "ok"%string))) with (files w).
  change (outputPath (withIntegrity w (fun _ => "ok"%string)) args) with (outputPath w args).
  destruct (List.length args <? 2)%nat; [discriminate|].
  destruct (validateFilesExist _ _ _) as [[]|e].
  2:{ cbn [exitCode]. intros H. destruct (exitCodeOf_positive e); lia. }
  destruct (files w (file1Of args)) as [bytes|].
  2:{ intros H. vm_compute in H. discriminate. }
  unfold mergeInto.
  change (datetime_now (withIntegrity w (fun _ => "ok"%string))) with (datetime_now w).
  change (getFileName (withIntegrity w (fun _ => "ok"%string))) with (getFileName w).
  destruct (createTileTable _ _ _ _ _ _) as [db1 [[]|e]].
  2:{ cbn [exitCode]. intros H. destruct (exitCodeOf_positive e); lia. }
  destruct (mergeTileData _ db1 _ _ _ false) as [db2 [m2|e]].
  2:{ cbn [exitCode]. intros H. destruct (exitCodeOf_positive e); lia. }
  destruct (mergeTileData _ db2 _ _ _ true) as [db3 [m1|e]].
  2:{ cbn [exitCode]. intros H. destruct (exitCodeOf_positive e); lia. }
  cbn [integrity_check withIntegrity String.eqb Ascii.eqb Bool.eqb negb].
  cbn [exitCode disk thrown report]. rewrite !writeFile_same.
  intros _ Hout Hbad. injection Hout as <-.
  destruct (integrity_check w (finalizeGeoPackage db3) =? "ok")%string eqn:I.
  { apply String.eqb_eq in I. contradiction. }
  cbn [negb exitCode disk thrown report]. rewrite writeFile_same.
  repeat split.
Qed.

Lemma integrity_failure_keeps_output_witness :
  thrown (main corruptWorld scenarioArgs) = Some (Error "Database integrity check failed")
  /\ mergedRows corruptWorld scenarioArgs = [tile 0 0 0 "b"; tile 1 0 1 "c"].
Proof.
  destruct (integrity_failure_keeps_output corruptWorld scenarioArgs
              (finalizeGeoPackage
                 (fst (mergeInto (withIntegrity corruptWorld (fun _ => "ok"%string))
                         (writeFile (files corruptWorld) "out.gpkg" scenarioA)
                         "out.gpkg" "merged_tiles" "a.gpkg" "b.gpkg" scenarioA))))
    as [Ht [_ [_ Hout]]].
  - reflexivity.
  - reflexivity.
  - discriminate.
  - split; [exact Ht|]. unfold mergedRows. rewrite Hout. reflexivity.
Defined.


Lemma filterBoolean_missing (fs : FileSystem) (f1 f2 : string) :
  filterBoolean [ if negb (existsSync fs f1) then Some f1 else None;
                  if negb (existsSync fs f2) then Some f2 else None ]
  = filter (fun p => negb (existsSync fs p) && negb (p =? "")%string) [f1; f2].
Proof.
  unfold filterBoolean. cbn [flat_map filter app].
  assert (H : forall f, match truthy (if negb (existsSync fs f) then Some f else None) with
                        | Some s => [s]
                        | None => []
                        end
                        = if negb (existsSync fs f) && negb (f =? "")%string then [f] else []).
  { intros f. destruct (negb (existsSync fs f)); [|reflexivity].
    destruct f; reflexivity. }
  rewrite !H.
  destruct (negb (existsSync fs f1) && negb (f1 =? "")%string);
    destruct (negb (existsSync fs f2) && negb (f2 =? "")%string); reflexivity.
Qed.

(** X18 (missing inputs stop the run early).  With at least two arguments,
    when an input path names no file the run fails with exit code 2 and the
    error "Missing file(s): ..." listing the missing paths that are not the
    empty string, first argument first, and no file has been written or
    changed. *)
Theorem missing_input_stops_early (w : World) (args : list string) :
  2 <= List.length args ->
  files w (file1Of args) = None \/ files w (file2Of args) = None ->
  thrown (main w args)
  = Some (Error ("Missing file(s): "
                 ++ String.concat ", "
                      (filter (fun p => negb (existsSync (files w) p) && negb (p =? "")%string)
                              [file1Of args; file2Of args])))
  /\ exitCode (main w args) = 2%Z
  /\ report (main w args) = None
  /\ forall p, disk (main w args) p = files w p.
Proof.
  intros Hlen Hmiss. unfold main.
  destruct (List.length args <? 2)%nat eqn:L; [apply Nat.ltb_lt in L; lia|].
  unfold validateFilesExist.
  assert (E : negb (existsSync (files w) (file1Of args))
              || negb (existsSync (files w) (file2Of args)) = true).
  { unfold existsSync. destruct Hmiss as [-> | ->]; [reflexivity|].
    apply orb_true_r. }
  rewrite E, filterBoolean_missing. cbn [thrown exitCode report disk].
  repeat split.
Qed.

Lemma missing_input_stops_early_witness :
  thrown (main scenarioWorld [""; "missing.gpkg"]%string)
  = Some (Error "Missing file(s): missing.gpkg")
  /\ disk (main scenarioWorld [""; "missing.gpkg"]%string) "merged__missing.gpkg.gpkg"%string
     = None.
Proof.
  destruct (missing_input_stops_early scenarioWorld [""; "missing.gpkg"]%string)
    as [Ht [_ [_ Hd]]].
  - cbn. lia.
  - left. reflexivity.
  - split; [exact Ht|]. rewrite Hd. reflexivity.
Defined.



Lemma string_length_app (a b : string) :
  String.length (a ++ b)%string = String.length a + String.length b.
Proof. induction a as [|c a IH]; cbn; [reflexivity | rewrite IH; reflexivity]. Qed.









(** ** Which tables the Inspector lists *)

Lemma lower_string_cons (c : ascii) (s : string) :
  lower_string (String c s) = String (lower c) (lower_string s).
Proof. reflexivity. Qed.

Lemma lower_string_empty (s : string) : lower_string s = EmptyString -> s = EmptyString.
Proof. destruct s; [reflexivity | rewrite lower_string_cons; discriminate]. Qed.

(** [word_%] matches exactly the names made of [word], in any letter case,
    followed by at least one more character. *)
Lemma like_word_any (word : string) :
  literalWord word = true ->
  forall s,
    like (word ++ "_%")%string s = true
    <-> exists head c rest,
          s = (head ++ String c rest)%string /\ lower_string head = word.
Proof.
  induction word as [|a word IH]; intros Hw s.
  - change (like ("" ++ "_%")%string s)
      with (match s with EmptyString => false | String _ s' => like "%" s' end).
    split.
    + destruct s as [|c rest]; [discriminate|]. intros _.
      exists EmptyString, c, rest. split; reflexivity.
    + intros [head [c [rest [-> Hh]]]]. apply lower_string_empty in Hh. subst head.
      apply like_percent.
  - cbn [literalWord] in Hw. apply andb_true_iff in Hw. destruct Hw as [Ha Hw].
    unfold literalChar in Ha. apply andb_true_iff in Ha. destruct Ha as [Ha Hl].
    apply andb_true_iff in Ha. destruct Ha as [Hp Hu].
    apply negb_true_iff in Hp. apply negb_true_iff in Hu. apply Ascii.eqb_eq in Hl.
    cbn [String.append like]. rewrite Hp, Hu, Hl.
    destruct s as [|d s].
    + split; [discriminate|].
      intros [head [c [rest [E _]]]]. destruct head; discriminate.
    + rewrite andb_true_iff, Ascii.eqb_eq, (IH Hw s). split.
      * intros [Hd [head [c [rest [-> Hh]]]]].
        exists (String d head), c, rest. split; [reflexivity|].
        rewrite lower_string_cons, Hh, <- Hd. reflexivity.
      * intros [head [c [rest [E Hh]]]].
        destruct head as [|h head]; [discriminate|].
        rewrite lower_string_cons in Hh. cbn [String.append] in E.
        inversion E; subst. inversion Hh; subst.
        split; [reflexivity|]. exists head, c, rest. split; reflexivity.
Qed.

(** X22 (the Inspector's name filter).  The Inspector lists a table exactly
    when its name is not one of the words sqlite, gpkg, rtree, idx, in any
    letter case, followed by at least one more character of any kind: the
    underscore of the four patterns is a wildcard, not a literal. *)
Theorem inspector_name_filter (db : Database) (name : string) :
  In name (getDataTables db)
  <-> In name (map fst (tables db))
      /\ ~ exists head c rest,
             name = (head ++ String c rest)%string
             /\ In (lower_string head) ["sqlite"; "gpkg"; "rtree"; "idx"]%string.
Proof.
  assert (Hd : dataTableName name = true
               <-> ~ exists head c rest,
                       name = (head ++ String c rest)%string
                       /\ In (lower_string head) ["sqlite"; "gpkg"; "rtree"; "idx"]%string).
  { unfold dataTableName. rewrite !andb_true_iff, !negb_true_iff.
    pose proof (like_word_any "sqlite" eq_refl name) as L1.
    pose proof (like_word_any "gpkg" eq_refl name) as L2.
    pose proof (like_word_any "rtree" eq_refl name) as L3.
    pose proof (like_word_any "idx" eq_refl name) as L4.
    cbn [String.append] in L1, L2, L3, L4.
    split.
    - intros [[[N1 N2] N3] N4] [head [c [rest [E Hin]]]].
      cbn [In] in Hin. destruct Hin as [H|[H|[H|[H|[]]]]]; symmetry in H.
      + assert (T : like "sqlite_%" name = true) by (apply L1; eauto). congruence.
      + assert (T : like "gpkg_%" name = true) by (apply L2; eauto). congruence.
      + assert (T : like "rtree_%" name = true) by (apply L3; eauto). congruence.
      + assert (T : like "idx_%" name = true) by (apply L4; eauto). congruence.
    - intros Hno.
      assert (G : forall pat word,
                 (like pat name = true <->
                  exists head c rest,
                    name = (head ++ String c rest)%string /\ lower_string head = word) ->
                 In word ["sqlite"; "gpkg"; "rtree"; "idx"]%string ->
                 like pat name = false).
      { intros pat word L Hw. destruct (like pat name) eqn:E; [|reflexivity].
        exfalso. apply Hno. destruct (proj1 L eq_refl) as [head [c [rest [E1 E2]]]].
        exists head, c, rest. split; [exact E1 | rewrite E2; exact Hw]. }
      repeat split.
      + apply (G _ _ L1). cbn; auto.
      + apply (G _ _ L2). cbn; auto.
      + apply (G _ _ L3). cbn; auto.
      + apply (G _ _ L4). cbn; auto. }
  unfold getDataTables. rewrite in_map_iff. split.
  - intros [t [Hn Ht]]. apply filter_In in Ht. destruct Ht as [Ht Hdn]. subst name.
    split; [apply in_map; exact Ht | apply Hd; exact Hdn].
  - intros [Hin Hno]. apply in_map_iff in Hin. destruct Hin as [t [Hn Ht]].
    exists t. split; [exact Hn|]. apply filter_In. split; [exact Ht|].
    rewrite Hn. apply Hd. exact Hno.
Qed.

Lemma inspector_name_filter_witness :
  In "tiles_a"%string (getDataTables staleA)
  /\ ~ In "idxtiles"%string (getDataTables staleA).
Proof.
  split.
  - apply (inspector_name_filter staleA "tiles_a"%string). split.
    + right. left. reflexivity.
    + intros [head [c [rest [E Hin]]]].
      assert (L : String.length head <= 6).
      { apply (f_equal String.length) in E. rewrite string_length_app in E.
        cbn [String.length] in E. lia. }
      destruct head as [|h1 [|h2 [|h3 [|h4 [|h5 [|h6 [|h7 head]]]]]]];
        cbn [String.length] in L; try lia;
        cbn [String.append] in E; inversion E; subst;
        vm_compute in Hin; intuition discriminate.
  - intros H. apply (inspector_name_filter staleA "idxtiles"%string) in H.
    destruct H as [_ H]. apply H.
    exists "idx"%string, "t"%char, "iles"%string. split; [reflexivity|].
    right. right. right. left. reflexivity.
Defined.
